(** * The Simli face-selection backend ([hello.py])

    A shallow embedding of the FastAPI application of [hello.py]: the module
    level configuration, the pydantic models, the three API handlers, the
    page handler with its inline HTML document, and the properties of these
    that the specification states.

    Conventions of the embedding.
    - A Python [str] is a list of code points ([list N]); [lit] turns an
      ASCII literal into one, and is a coercion.
    - A JSON value as [response.json()] yields it is a [json]; a Python
      [dict] with string keys is a [gmap].
    - An [async def] is a term of [Async]: it returns, raises, or awaits one
      outbound HTTP call and goes on with the response. [run] plays it
      against an upstream and records the calls that were made.
    - What the route decorators add ([response_model], [status_code],
      [response_class]) is modelled under the heading Routes; [serve] is
      one request going through a route.
    - An exception that leaves a handler is the end of [serve]: how the
      framework words the answer it builds from it is not modelled.
    - Text leaves the process as UTF-8. A string with a lone surrogate has
      no encoding: a request body or a JSON response that holds one is not
      written, the call raises. *)

From Stdlib Require Import ZArith NArith Ascii Floats.SpecFloat.
From stdpp Require Import base strings list gmap.

#[local] Set Warnings "-register-all".
#[local] Open Scope Z_scope.

(** ** Python strings *)

Abbreviation str := (list N).

Fixpoint lit (s : string) : str :=
  match s with
  | EmptyString => []
  | String a s' => N_of_ascii a :: lit s'
  end.

Coercion lit : string >-> list.
Arguments lit : simpl never.

(** [s[:n]] for a literal [n >= 0]. *)
Definition slice_to (n : nat) (s : str) : str := take n s.

(** [s.startswith(prefix)]. *)
Fixpoint startswith (prefix s : str) : bool :=
  match prefix, s with
  | [], _ => true
  | _ :: _, [] => false
  | p :: prefix', c :: s' => N.eqb p c && startswith prefix' s'
  end.

(** [sub in s]. *)
Fixpoint contains (sub s : str) : bool :=
  startswith sub s ||
  match s with
  | [] => false
  | _ :: s' => contains sub s'
  end.

(** [s.replace(old, new)] for a non-empty [old]: the text is read from left
    to right; where [old] starts, [new] is written and the scan goes on
    behind the occurrence ([skip] counts the characters of it that are still
    to be passed over); any other character is copied. *)
Fixpoint replace_from (old new : str) (skip : nat) (s : str) : str :=
  match s with
  | [] => []
  | c :: s' =>
      match skip with
      | S k => replace_from old new k s'
      | O =>
          if startswith old s
          then new ++ replace_from old new (length old - 1) s'
          else c :: replace_from old new 0 s'
      end
  end.

(** [s.replace(old, new)]; with an empty [old], Python writes [new] before
    every character and at the end. *)
Definition replace (old new s : str) : str :=
  match old with
  | [] => new ++ flat_map (λ c, c :: new) s
  | _ :: _ => replace_from old new 0 s
  end.

(** [sep.join(parts)]. *)
Fixpoint join (sep : str) (parts : list str) : str :=
  match parts with
  | [] => []
  | [p] => p
  | p :: rest => p ++ sep ++ join sep rest
  end.

(** [sub] occurs in [s] as a contiguous run of characters. *)
Definition substring (sub s : str) : Prop :=
  ∃ before after : str, s = before ++ sub ++ after.

(** ** JSON values *)

Inductive json : Type :=
| JNull
| JBool (b : bool)
| JInt (z : Z)
| JFloat (f : spec_float)
| JStr (s : str)
| JArr (l : list json)
| JObj (m : gmap str json).

(** ** Encoding as UTF-8

    A JSON text may spell a lone surrogate (a code point from U+D800 to
    U+DFFF); the parser and the models hand it on inside the string. Such a
    string cannot be encoded as UTF-8. *)

Definition surrogate (c : N) : bool := (55296 <=? c)%N && (c <=? 57343)%N.

(** [s.encode("utf-8")] does not raise. *)
Definition encodable_str (s : str) : bool := forallb (λ c, negb (surrogate c)) s.

(** Every string of a JSON value, keys included, can be encoded. *)
Fixpoint utf8_encodable (j : json) : bool :=
  match j with
  | JStr s => encodable_str s
  | JArr l => forallb utf8_encodable l
  | JObj m =>
      map_fold (λ k v rest, encodable_str k && utf8_encodable v && rest) true m
  | JNull | JBool _ | JInt _ | JFloat _ => true
  end.

(** ** Module level configuration (lines 11-26) *)

Record Config := { SIMLI_API_KEY : str; TTS_API_KEY : str }.

(** [os.getenv(name)] on the environment as [load_dotenv()] left it. *)
Definition getenv (environ : gmap str str) (name : str) : option str :=
  environ !! name.

(** One [X = os.getenv(..)] with its [if not X:] block: the value that is
    bound in the end, and what was printed. Python's [not] holds of [None]
    and of the empty string. *)
Definition or_default (v : option str) (warning default : str)
  : list str * str :=
  match v with
  | Some (c :: key) => ([], c :: key)
  | Some [] | None => ([warning], default)
  end.

(** The module body up to the models: the lines printed and the two globals. *)
Definition module_init (environ : gmap str str) : list str * Config :=
  let '(out1, simli) :=
    or_default (getenv environ "SIMLI_API_KEY")
      "Warning: SIMLI_API_KEY not found in environment variables. Using default value for testing."
      "YOUR_API_KEY_HERE" in
  let '(out2, tts) :=
    or_default (getenv environ "TTS_API_KEY")
      "Warning: TTS_API_KEY not found in environment variables. Using default value for testing."
      "YOUR_TTS_API_KEY_HERE" in
  (out1 ++ out2, {| SIMLI_API_KEY := simli; TTS_API_KEY := tts |}).

(** ** Pydantic models (lines 28-62) *)

(** What pydantic does with a JSON value at a field of a scalar type differs
    between its versions (a number may or may not be taken for a [str]).
    The embedding fixes only what all of them share: a value of the declared
    type is accepted as it is. *)
Class Pydantic := {
  validate_str : json → option str;
  validate_int : json → option Z;
  validate_dict : json → option (gmap str json);
  validate_str_JStr : ∀ s, validate_str (JStr s) = Some s;
  validate_int_JInt : ∀ z, validate_int (JInt z) = Some z;
  validate_dict_JObj : ∀ m, validate_dict (JObj m) = Some m
}.

(** The validator that accepts values of the declared type and nothing else. *)
#[export] Instance strict : Pydantic := {|
  validate_str j := match j with JStr s => Some s | _ => None end;
  validate_int j := match j with JInt z => Some z | _ => None end;
  validate_dict j := match j with JObj m => Some m | _ => None end;
  validate_str_JStr _ := eq_refl;
  validate_int_JInt _ := eq_refl;
  validate_dict_JObj _ := eq_refl
|}.

(** A field [name: T]: it has to be there. *)
Definition required {A} (validate : json → option A)
    (m : gmap str json) (field : str) : option A :=
  m !! field ≫= validate.

(** A field [name: Optional[T] = None]: absent or [null] gives [None]. *)
Definition optional {A} (validate : json → option A)
    (m : gmap str json) (field : str) : option (option A) :=
  match m !! field with
  | None | Some JNull => Some None
  | Some j => Some <$> validate j
  end.

(** [List[T]]. *)
Definition List {A} (validate : json → option A) (j : json) : option (list A) :=
  match j with
  | JArr l => mapM validate l
  | _ => None
  end.

Definition json_of_optional {A} (f : A → json) (v : option A) : json :=
  from_option f JNull v.

Module FaceOption.
Record t := {
  id : str;
  name : str;
  previewImage : str;
  previewVideo : option str;
  createdAt : option Z
}.

Definition validate `{Pydantic} (j : json) : option t :=
  m ← validate_dict j;
  i ← required validate_str m "id";
  n ← required validate_str m "name";
  img ← required validate_str m "previewImage";
  vid ← optional validate_str m "previewVideo";
  at_ ← optional validate_int m "createdAt";
  Some {| id := i; name := n; previewImage := img;
          previewVideo := vid; createdAt := at_ |}.

Definition serialize (f : t) : json :=
  JObj (<[lit "id" := JStr (id f)]>
       (<[lit "name" := JStr (name f)]>
       (<[lit "previewImage" := JStr (previewImage f)]>
       (<[lit "previewVideo" := json_of_optional JStr (previewVideo f)]>
       (<[lit "createdAt" := json_of_optional JInt (createdAt f)]> ∅))))).
End FaceOption.

Module AgentCreate.
Record t := {
  face_id : str;
  name : str;
  first_message : option str;
  prompt : option str;
  voice_provider : option str;
  voice_id : option str;
  voice_model : option str;
  language : option str;
  llm_endpoint : option str;
  max_idle_time : option Z;
  max_session_length : option Z
}.
End AgentCreate.

Module AgentResponse.
Record t := { id : str; face_id : str; name : str }.

Definition serialize (r : t) : json :=
  JObj (<[lit "id" := JStr (id r)]>
       (<[lit "face_id" := JStr (face_id r)]>
       (<[lit "name" := JStr (name r)]> ∅))).
End AgentResponse.

Module SessionTokenRequest.
Record t := { simliAPIKey : str; ttsAPIKey : str }.
End SessionTokenRequest.

Module SessionTokenResponse.
Record t := { session_token : str }.

Definition validate `{Pydantic} (j : json) : option t :=
  m ← validate_dict j;
  tok ← required validate_str m "session_token";
  Some {| session_token := tok |}.

Definition serialize (r : t) : json :=
  JObj (<[lit "session_token" := JStr (session_token r)]> ∅).
End SessionTokenResponse.

(** ** The HTTP client and asynchronous handlers *)

Inductive Method := GET | POST.

(** An outbound request of [httpx.AsyncClient]. *)
Record Request := {
  method : Method;
  url : str;
  headers : list (str * str);
  json_payload : option json
}.

(** What the handlers read off an [httpx.Response]: [json_] is the parsed
    body, [None] when the body is no JSON and [response.json()] raises. *)
Record Response := {
  status_code : Z;
  text : str;
  json_ : option json
}.

(** A request can be put on the wire when its JSON body, if it has one,
    can be encoded. *)
Definition sendable (req : Request) : bool :=
  match json_payload req with
  | Some payload => utf8_encodable payload
  | None => true
  end.

(** An upstream answers the requests that reach it ([None]: no answer
    comes back). A request that cannot be put on the wire does not leave
    the client, so no upstream has an answer to it. *)
Record Upstream := {
  answer :> Request → option Response;
  answer_sendable : ∀ req resp, answer req = Some resp → sendable req = true
}.

(** The upstream that answers as [f] does, to the requests that reach it. *)
Definition reached (f : Request → option Response) : Upstream.
Proof.
  refine {| answer := λ req, if sendable req then f req else None |}.
  intros req resp. by destruct (sendable req).
Defined.

Inductive exn :=
| HTTPException (status_code : Z) (detail : str)
| RequestError
| JSONDecodeError
| ResponseValidationError
| UnicodeEncodeError
| SerializationError.

Inductive Async (A : Type) : Type :=
| Return (a : A)
| Raise (e : exn)
| Await (req : Request) (k : Response → Async A).

Arguments Return {A} a.
Arguments Raise {A} e.
Arguments Await {A} req k.

Fixpoint Async_bind {A B} (f : A → Async B) (c : Async A) : Async B :=
  match c with
  | Return a => f a
  | Raise e => Raise e
  | Await req k => Await req (λ resp, Async_bind f (k resp))
  end.

#[export] Instance Async_mret : MRet Async := @Return.
#[export] Instance Async_mbind : MBind Async := @Async_bind.

Inductive result (A : Type) : Type :=
| Returned (a : A)
| Raised (e : exn).

Arguments Returned {A} a.
Arguments Raised {A} e.

(** Plays a handler against an upstream ([None]: the request does not get
    through and httpx raises): the outbound calls in the order they were
    made, and how the handler ended. *)
Fixpoint run {A} (upstream : Request → option Response) (c : Async A)
  : list Request * result A :=
  match c with
  | Return a => ([], Returned a)
  | Raise e => ([], Raised e)
  | Await req k =>
      match upstream req with
      | Some resp => let '(calls, r) := run upstream (k resp) in (req :: calls, r)
      | None => ([req], Raised RequestError)
      end
  end.

(** [await client.get(url, headers=headers)]. *)
Definition client_get (url : str) (headers : list (str * str)) : Async Response :=
  Await {| method := GET; url := url; headers := headers; json_payload := None |} Return.

(** [await client.post(url, json=payload)]: the payload is encoded first,
    and when that raises nothing is sent. *)
Definition client_post (url : str) (payload : json) : Async Response :=
  if utf8_encodable payload
  then Await {| method := POST; url := url; headers := [];
                json_payload := Some payload |} Return
  else Raise UnicodeEncodeError.

(** [response.json()]. *)
Definition Response_json (response : Response) : Async json :=
  match json_ response with
  | Some j => Return j
  | None => Raise JSONDecodeError
  end.

(** ** The handlers (lines 64-123) *)

Definition get_faces (cfg : Config) : Async json :=
  response ← client_get "https://api.simli.ai/getFaceIDs?getPublic=false"
                [(lit "api-key", SIMLI_API_KEY cfg)];
  if bool_decide (status_code response ≠ 200)
  then Raise (HTTPException (status_code response)
                ("Error fetching faces from Simli API: " ++ text response))
  else Response_json response.

Definition create_agent (agent : AgentCreate.t) : Async AgentResponse.t :=
  Return {| AgentResponse.id := "agent-" ++ slice_to 8 (AgentCreate.face_id agent);
            AgentResponse.face_id := AgentCreate.face_id agent;
            AgentResponse.name := AgentCreate.name agent |}.

Definition create_e2e_session_token (request : SessionTokenRequest.t) : Async json :=
  response ← client_post "https://api.simli.ai/createE2ESessionToken"
                (JObj (<[lit "simliAPIKey" := JStr (SessionTokenRequest.simliAPIKey request)]>
                      (<[lit "ttsAPIKey" := JStr (SessionTokenRequest.ttsAPIKey request)]> ∅)));
  if bool_decide (status_code response ≠ 200)
  then Raise (HTTPException (status_code response)
                ("Error creating session token: " ++ text response))
  else Response_json response.

(** ** The page (lines 124-719)

    The triple-quoted literal of [get_html], line by line, from the line
    break behind the opening quotes to the four blanks before the closing
    ones. A line is written as the pieces between its double quotes. *)

Definition PAGE_LINES : list (list string) := [
  [""];
  ["    <!DOCTYPE html>"];
  ["    <html>"];
  ["    <head>"];
  ["        <title>Simli Face Selection</title>"];
  ["        <style>"];
  ["            body {"];
  ["                font-family: Arial, sans-serif;"];
  ["                max-width: 1200px;"];
  ["                margin: 0 auto;"];
  ["                padding: 20px;"];
  ["                background-color: #f9f9f9;"];
  ["            }"];
  ["            h1 {"];
  ["                color: #333;"];
  ["                text-align: center;"];
  ["                margin-bottom: 30px;"];
  ["            }"];
  ["            .container {"];
  ["                display: flex;"];
  ["                flex-direction: column;"];
  ["                gap: 20px;"];
  ["            }"];
  ["            .two-column {"];
  ["                display: flex;"];
  ["                gap: 20px;"];
  ["            }"];
  ["            .left-column {"];
  ["                flex: 1;"];
  ["            }"];
  ["            .right-column {"];
  ["                flex: 1;"];
  ["            }"];
  ["            .selection-container, .form-container, .session-container {"];
  ["                background-color: white;"];
  ["                border-radius: 8px;"];
  ["                padding: 20px;"];
  ["                box-shadow: 0 2px 4px rgba(0,0,0,0.1);"];
  ["                margin-bottom: 20px;"];
  ["            }"];
  ["            "];
  ["            .form-group {"];
  ["                margin-bottom: 15px;"];
  ["            }"];
  ["            "];
  ["            label {"];
  ["                display: block;"];
  ["                margin-bottom: 5px;"];
  ["                font-weight: bold;"];
  ["            }"];
  ["            "];
  ["            input, select, textarea {"];
  ["                width: 100%;"];
  ["                padding: 10px;"];
  ["                border: 1px solid #ddd;"];
  ["                border-radius: 4px;"];
  ["                font-size: 14px;"];
  ["            }"];
  ["            "];
  ["            textarea {"];
  ["                min-height: 80px;"];
  ["                resize: vertical;"];
  ["            }"];
  ["            "];
  ["            .required-field::after {"];
  ["                content: "; " *"; ";"];
  ["                color: #c62828;"];
  ["            }"];
  ["            "];
  ["            .submit-button {"];
  ["                background-color: #4CAF50;"];
  ["                color: white;"];
  ["                border: none;"];
  ["                padding: 12px 20px;"];
  ["                border-radius: 4px;"];
  ["                cursor: pointer;"];
  ["                font-size: 16px;"];
  ["                margin-top: 15px;"];
  ["            }"];
  ["            "];
  ["            .success-container {"];
  ["                background-color: #e8f5e9;"];
  ["                border-left: 4px solid #4CAF50;"];
  ["                padding: 15px;"];
  ["                margin-top: 20px;"];
  ["                border-radius: 4px;"];
  ["            }"];
  ["            "];
  ["            .agent-details, .token-details {"];
  ["                margin-top: 10px;"];
  ["                background-color: #f5f5f5;"];
  ["                padding: 15px;"];
  ["                border-radius: 4px;"];
  ["                font-family: monospace;"];
  ["            }"];
  ["            "];
  ["            .agent-id, .token-value {"];
  ["                font-weight: bold;"];
  ["                color: #2e7d32;"];
  ["                word-break: break-all;"];
  ["            }"];
  ["            "];
  ["            .copy-button {"];
  ["                background-color: #2196F3;"];
  ["                color: white;"];
  ["                border: none;"];
  ["                padding: 5px 10px;"];
  ["                border-radius: 4px;"];
  ["                cursor: pointer;"];
  ["                font-size: 12px;"];
  ["                margin-left: 10px;"];
  ["            }"];
  ["            "];
  ["            .copy-button:hover {"];
  ["                background-color: #0b7dda;"];
  ["            }"];
  ["            select {"];
  ["                width: 100%;"];
  ["                padding: 12px;"];
  ["                margin-bottom: 20px;"];
  ["                border-radius: 4px;"];
  ["                border: 1px solid #ddd;"];
  ["                font-size: 16px;"];
  ["            }"];
  ["            .faces-grid {"];
  ["                display: flex;"];
  ["                justify-content: center;"];
  ["                margin-top: 20px;"];
  ["                flex-wrap: wrap;"];
  ["                gap: 20px;"];
  ["            }"];
  ["            .face-card {"];
  ["                width: 300px;"];
  ["                border: 1px solid #eee;"];
  ["                border-radius: 8px;"];
  ["                overflow: hidden;"];
  ["                box-shadow: 0 2px 8px rgba(0,0,0,0.1);"];
  ["                transition: transform 0.2s, box-shadow 0.2s;"];
  ["                cursor: pointer;"];
  ["            }"];
  ["            .face-card:hover {"];
  ["                transform: translateY(-5px);"];
  ["                box-shadow: 0 5px 15px rgba(0,0,0,0.1);"];
  ["            }"];
  ["            .face-card.selected {"];
  ["                border: 3px solid #4CAF50;"];
  ["            }"];
  ["            .face-image {"];
  ["                width: 100%;"];
  ["                height: 200px;"];
  ["                object-fit: cover;"];
  ["            }"];
  ["            .face-info {"];
  ["                padding: 15px;"];
  ["            }"];
  ["            .face-name {"];
  ["                font-weight: bold;"];
  ["                font-size: 18px;"];
  ["                margin-bottom: 5px;"];
  ["            }"];
  ["            .face-id {"];
  ["                color: #777;"];
  ["                font-size: 12px;"];
  ["                word-break: break-all;"];
  ["            }"];
  ["            .loading {"];
  ["                text-align: center;"];
  ["                padding: 40px;"];
  ["                font-size: 18px;"];
  ["                color: #666;"];
  ["            }"];
  ["            .error {"];
  ["                background-color: #ffebee;"];
  ["                color: #c62828;"];
  ["                padding: 15px;"];
  ["                border-radius: 4px;"];
  ["                margin-bottom: 20px;"];
  ["                text-align: center;"];
  ["            }"];
  ["            .video-container {"];
  ["                margin-top: 30px;"];
  ["                background-color: white;"];
  ["                border-radius: 8px;"];
  ["                padding: 20px;"];
  ["                box-shadow: 0 2px 4px rgba(0,0,0,0.1);"];
  ["            }"];
  ["            video {"];
  ["                max-width: 100%;"];
  ["                border-radius: 4px;"];
  ["            }"];
  ["        </style>"];
  ["    </head>"];
  ["    <body>"];
  ["        <h1>Simli Face Selection</h1>"];
  ["        "];
  ["        <div class="; "container"; ">"];
  ["            <div id="; "error"; " class="; "error"; " style="; "display: none;"; "></div>"];
  ["            "];
  ["            <div class="; "two-column"; ">"];
  ["                <div class="; "left-column"; ">"];
  ["                    <div class="; "form-container"; ">"];
  ["                        <h2>Create Agent</h2>"];
  ["                        <form id="; "agentForm"; ">"];
  ["                            <input type="; "hidden"; " id="; "face_id"; " name="; "face_id"; " value="; ""; ">"];
  ["                            "];
  ["                            <div class="; "form-group"; ">"];
  ["                                <label for="; "name"; " class="; "required-field"; ">Name</label>"];
  ["                                <input type="; "text"; " id="; "name"; " name="; "name"; " value="; "Untitled Agent"; " required>"];
  ["                            </div>"];
  ["                            "];
  ["                            <div class="; "form-group"; ">"];
  ["                                <label for="; "first_message"; ">First Message</label>"];
  ["                                <textarea id="; "first_message"; " name="; "first_message"; ">The first message you want the agent to say</textarea>"];
  ["                            </div>"];
  ["                            "];
  ["                            <div class="; "form-group"; ">"];
  ["                                <label for="; "prompt"; ">Prompt</label>"];
  ["                                <textarea id="; "prompt"; " name="; "prompt"; ">The persona of the agent and the context of the conversation</textarea>"];
  ["                            </div>"];
  ["                            "];
  ["                            <div class="; "form-group"; ">"];
  ["                                <label for="; "voice_provider"; ">Voice Provider</label>"];
  ["                                <select id="; "voice_provider"; " name="; "voice_provider"; ">"];
  ["                                    <option value="; "elevenlabs"; ">Elevenlabs</option>"];
  ["                                    <option value="; "cartesia"; ">Cartesia</option>"];
  ["                                </select>"];
  ["                            </div>"];
  ["                            "];
  ["                            <div class="; "form-group"; ">"];
  ["                                <label for="; "voice_id"; ">Voice ID</label>"];
  ["                                <input type="; "text"; " id="; "voice_id"; " name="; "voice_id"; ">"];
  ["                            </div>"];
  ["                            "];
  ["                            <div class="; "form-group"; ">"];
  ["                                <label for="; "voice_model"; ">Voice Model</label>"];
  ["                                <input type="; "text"; " id="; "voice_model"; " name="; "voice_model"; " placeholder="; "e.g., sonic-english"; ">"];
  ["                            </div>"];
  ["                            "];
  ["                            <div class="; "form-group"; ">"];
  ["                                <label for="; "language"; ">Language</label>"];
  ["                                <input type="; "text"; " id="; "language"; " name="; "language"; ">"];
  ["                            </div>"];
  ["                            "];
  ["                            <div class="; "form-group"; ">"];
  ["                                <label for="; "llm_endpoint"; ">LLM Endpoint</label>"];
  ["                                <input type="; "text"; " id="; "llm_endpoint"; " name="; "llm_endpoint"; ">"];
  ["                            </div>"];
  ["                            "];
  ["                            <div class="; "form-group"; ">"];
  ["                                <label for="; "max_idle_time"; ">Max Idle Time (seconds)</label>"];
  ["                                <input type="; "number"; " id="; "max_idle_time"; " name="; "max_idle_time"; " value="; "300"; ">"];
  ["                            </div>"];
  ["                            "];
  ["                            <div class="; "form-group"; ">"];
  ["                                <label for="; "max_session_length"; ">Max Session Length (seconds)</label>"];
  ["                                <input type="; "number"; " id="; "max_session_length"; " name="; "max_session_length"; " value="; "3600"; ">"];
  ["                            </div>"];
  ["                            "];
  ["                            <button type="; "submit"; " class="; "submit-button"; ">Create Agent</button>"];
  ["                        </form>"];
  ["                        "];
  ["                        <div id="; "successContainer"; " class="; "success-container"; " style="; "display: none;"; ">"];
  ["                            <h3>Agent Created Successfully!</h3>"];
  ["                            <p>Your agent has been created with the following details:</p>"];
  ["                            <div id="; "agentDetails"; " class="; "agent-details"; ">"];
  ["                                <div>Name: <span id="; "createdAgentName"; "></span></div>"];
  ["                                <div>Face ID: <span id="; "createdAgentFaceId"; "></span></div>"];
  ["                                <div>Agent ID: <span id="; "createdAgentId"; " class="; "agent-id"; "></span> "];
  ["                                    <button onclick="; "copyAgentId()"; " class="; "copy-button"; ">Copy ID</button>"];
  ["                                </div>"];
  ["                            </div>"];
  ["                        </div>"];
  ["                    </div>"];
  ["                </div>"];
  ["                "];
  ["                <div class="; "right-column"; ">"];
  ["                    <div class="; "selection-container"; ">"];
  ["                        <h2>Select a Face</h2>"];
  ["                        <select id="; "faceSelect"; " onchange="; "updateSelectedFace()"; ">"];
  ["                            <option value="; ""; ">Select a face...</option>"];
  ["                        </select>"];
  ["                        "];
  ["                        <div id="; "loading"; " class="; "loading"; ">Loading faces...</div>"];
  ["                        <div id="; "facesGrid"; " class="; "faces-grid"; "></div>"];
  ["                    </div>"];
  ["                </div>"];
  ["            </div>"];
  ["            "];
  ["            <div id="; "videoPreview"; " class="; "video-container"; " style="; "display: none;"; ">"];
  ["                <h2>Video Preview</h2>"];
  ["                <video id="; "videoPlayer"; " controls autoplay loop muted></video>"];
  ["            </div>"];
  ["            "];
  ["            <!-- New session token section -->"];
  ["            <div class="; "session-container"; ">"];
  ["                <h2>Create E2E Session Token</h2>"];
  ["                <form id="; "sessionTokenForm"; ">"];
  ["                    <div class="; "form-group"; ">"];
  ["                        <label for="; "simliAPIKey"; ">Simli API Key</label>"];
  ["                        <input type="; "text"; " id="; "simliAPIKey"; " name="; "simliAPIKey"; " value="; "SIMLI_API_KEY"; ">"];
  ["                    </div>"];
  ["                    "];
  ["                    <div class="; "form-group"; ">"];
  ["                        <label for="; "ttsAPIKey"; ">TTS API Key</label>"];
  ["                        <input type="; "text"; " id="; "ttsAPIKey"; " name="; "ttsAPIKey"; " value="; "TTS_API_KEY"; ">"];
  ["                    </div>"];
  ["                    "];
  ["                    <button type="; "submit"; " class="; "submit-button"; ">Create Session Token</button>"];
  ["                </form>"];
  ["                "];
  ["                <div id="; "tokenSuccessContainer"; " class="; "success-container"; " style="; "display: none;"; ">"];
  ["                    <h3>Session Token Created Successfully!</h3>"];
  ["                    <div id="; "tokenDetails"; " class="; "token-details"; ">"];
  ["                        <div>Token: <span id="; "createdToken"; " class="; "token-value"; "></span> "];
  ["                            <button onclick="; "copyToken()"; " class="; "copy-button"; ">Copy Token</button>"];
  ["                        </div>"];
  ["                    </div>"];
  ["                </div>"];
  ["            </div>"];
  ["        </div>"];
  [""];
  ["        <script>"];
  ["            // Global variables"];
  ["            let faces = [];"];
  ["            let selectedFaceId = '';"];
  ["            "];
  ["            // API endpoint for agent creation"];
  ["            const CREATE_AGENT_ENDPOINT = "; "https://api.simli.ai/agent"; ";"];
  ["            "];
  ["            // DOM Elements"];
  ["            const faceSelect = document.getElementById('faceSelect');"];
  ["            const facesGrid = document.getElementById('facesGrid');"];
  ["            const loadingElement = document.getElementById('loading');"];
  ["            const errorElement = document.getElementById('error');"];
  ["            const videoPreview = document.getElementById('videoPreview');"];
  ["            const videoPlayer = document.getElementById('videoPlayer');"];
  ["            const agentForm = document.getElementById('agentForm');"];
  ["            const faceIdInput = document.getElementById('face_id');"];
  ["            const successContainer = document.getElementById('successContainer');"];
  ["            const createdAgentName = document.getElementById('createdAgentName');"];
  ["            const createdAgentFaceId = document.getElementById('createdAgentFaceId');"];
  ["            const createdAgentId = document.getElementById('createdAgentId');"];
  ["            "];
  ["            // Session token elements"];
  ["            const sessionTokenForm = document.getElementById('sessionTokenForm');"];
  ["            const tokenSuccessContainer = document.getElementById('tokenSuccessContainer');"];
  ["            const createdToken = document.getElementById('createdToken');"];
  ["            "];
  ["            // Load faces on page load"];
  ["            document.addEventListener('DOMContentLoaded', loadFaces);"];
  ["            "];
  ["            // Add form submission handlers"];
  ["            agentForm.addEventListener('submit', submitAgentForm);"];
  ["            sessionTokenForm.addEventListener('submit', submitSessionTokenForm);"];
  ["            "];
  ["            // Functions to interact with the API"];
  ["            async function loadFaces() {"];
  ["                try {"];
  ["                    showLoading(true);"];
  ["                    const response = await fetch('/api/faces');"];
  ["                    "];
  ["                    if (!response.ok) {"];
  ["                        throw new Error(`API error: ${response.status} ${response.statusText}`);"];
  ["                    }"];
  ["                    "];
  ["                    faces = await response.json();"];
  ["                    "];
  ["                    if (!faces || faces.length === 0) {"];
  ["                        showError('No faces available. Please check your API key and try again.');"];
  ["                        return;"];
  ["                    }"];
  ["                    "];
  ["                    // Populate dropdown and face cards"];
  ["                    populateFaceOptions(faces);"];
  ["                    createFaceCards(faces);"];
  ["                    "];
  ["                    showLoading(false);"];
  ["                } catch (error) {"];
  ["                    console.error('Error loading faces:', error);"];
  ["                    showError(`Failed to load faces: ${error.message}`);"];
  ["                    showLoading(false);"];
  ["                }"];
  ["            }"];
  ["            "];
  ["            function populateFaceOptions(faces) {"];
  ["                // Clear existing options"];
  ["                faceSelect.innerHTML = '<option value="; ""; ">Select a face...</option>';"];
  ["                "];
  ["                // Add new options"];
  ["                faces.forEach(face => {"];
  ["                    const option = document.createElement('option');"];
  ["                    option.value = face.id;"];
  ["                    option.textContent = face.name;"];
  ["                    faceSelect.appendChild(option);"];
  ["                });"];
  ["            }"];
  ["            "];
  ["            function createFaceCards(faces) {"];
  ["                facesGrid.innerHTML = '';"];
  ["                "];
  ["                faces.forEach(face => {"];
  ["                    const card = document.createElement('div');"];
  ["                    card.className = 'face-card';"];
  ["                    card.dataset.id = face.id;"];
  ["                    card.onclick = () => selectFace(face.id);"];
  ["                    "];
  ["                    card.innerHTML = `"];
  ["                        <img src="; "${face.previewImage}"; " alt="; "${face.name}"; " class="; "face-image"; " onerror="; "this.src='https://via.placeholder.com/300x200?text=Image+Not+Available'"; ">"];
  ["                        <div class="; "face-info"; ">"];
  ["                            <div class="; "face-name"; ">${face.name}</div>"];
  ["                            <div class="; "face-id"; ">${face.id}</div>"];
  ["                        </div>"];
  ["                    `;"];
  ["                    "];
  ["                    facesGrid.appendChild(card);"];
  ["                });"];
  ["            }"];
  ["            "];
  ["            function selectFace(faceId) {"];
  ["                selectedFaceId = faceId;"];
  ["                "];
  ["                // Update dropdown"];
  ["                faceSelect.value = faceId;"];
  ["                "];
  ["                // Update hidden form field"];
  ["                faceIdInput.value = faceId;"];
  ["                "];
  ["                // Update card selection"];
  ["                document.querySelectorAll('.face-card').forEach(card => {"];
  ["                    if (card.dataset.id === faceId) {"];
  ["                        card.classList.add('selected');"];
  ["                    } else {"];
  ["                        card.classList.remove('selected');"];
  ["                    }"];
  ["                });"];
  ["                "];
  ["                // Find the selected face"];
  ["                const selectedFace = faces.find(face => face.id === faceId);"];
  ["                "];
  ["                // Update video preview"];
  ["                if (selectedFace && selectedFace.previewVideo) {"];
  ["                    videoPlayer.src = selectedFace.previewVideo;"];
  ["                    videoPreview.style.display = 'block';"];
  ["                    "];
  ["                    // Automatically scroll to video preview"];
  ["                    setTimeout(() => {"];
  ["                        videoPreview.scrollIntoView({ behavior: 'smooth', block: 'start' });"];
  ["                    }, 100);"];
  ["                } else {"];
  ["                    videoPreview.style.display = 'none';"];
  ["                }"];
  ["            }"];
  ["            "];
  ["            function updateSelectedFace() {"];
  ["                const faceId = faceSelect.value;"];
  ["                if (faceId) {"];
  ["                    selectFace(faceId);"];
  ["                }"];
  ["            }"];
  ["            "];
  ["            function showLoading(isLoading) {"];
  ["                loadingElement.style.display = isLoading ? 'block' : 'none';"];
  ["            }"];
  ["            "];
  ["            function showError(message) {"];
  ["                errorElement.textContent = message;"];
  ["                errorElement.style.display = message ? 'block' : 'none';"];
  ["            }"];
  ["            "];
  ["            async function submitAgentForm(e) {"];
  ["                e.preventDefault();"];
  ["                "];
  ["                // Hide success message if shown previously"];
  ["                successContainer.style.display = 'none';"];
  ["                "];
  ["                // Validate that a face is selected"];
  ["                if (!selectedFaceId) {"];
  ["                    showError('Please select a face before creating an agent');"];
  ["                    return;"];
  ["                }"];
  ["                "];
  ["                // Get form data"];
  ["                const formData = new FormData(agentForm);"];
  ["                const agentData = {};"];
  ["                "];
  ["                // Convert FormData to JSON object"];
  ["                for (const [key, value] of formData.entries()) {"];
  ["                    // Convert numeric values to numbers"];
  ["                    if (key === 'max_idle_time' || key === 'max_session_length') {"];
  ["                        agentData[key] = parseInt(value);"];
  ["                    } else {"];
  ["                        agentData[key] = value;"];
  ["                    }"];
  ["                }"];
  ["                "];
  ["                try {"];
  ["                    const response = await fetch(CREATE_AGENT_ENDPOINT, {"];
  ["                        method: 'POST',"];
  ["                        headers: {"];
  ["                            'Content-Type': 'application/json',"];
  ["                            'x-simli-api-key': 'SIMLI_API_KEY' // Assuming you need the same API key"];
  ["                        },"];
  ["                        body: JSON.stringify(agentData)"];
  ["                    });"];
  ["                    "];
  ["                    if (!response.ok) {"];
  ["                        const errorData = await response.json();"];
  ["                        throw new Error(errorData.detail || 'Failed to create agent');"];
  ["                    }"];
  ["                    "];
  ["                    const createdAgent = await response.json();"];
  ["                    "];
  ["                    // Display success message with agent details"];
  ["                    createdAgentName.textContent = createdAgent.name;"];
  ["                    createdAgentFaceId.textContent = createdAgent.face_id;"];
  ["                    createdAgentId.textContent = createdAgent.id;"];
  ["                    successContainer.style.display = 'block';"];
  ["                    "];
  ["                    // Scroll to success message"];
  ["                    successContainer.scrollIntoView({ behavior: 'smooth', block: 'start' });"];
  ["                    "];
  ["                } catch (error) {"];
  ["                    console.error('Error creating agent:', error);"];
  ["                    showError(`Failed to create agent: ${error.message}`);"];
  ["                }"];
  ["            }"];
  ["            "];
  ["            async function submitSessionTokenForm(e) {"];
  ["                e.preventDefault();"];
  ["                "];
  ["                // Hide token success message if shown previously"];
  ["                tokenSuccessContainer.style.display = 'none';"];
  ["                "];
  ["                // Get form data"];
  ["                const formData = new FormData(sessionTokenForm);"];
  ["                const tokenData = {};"];
  ["                "];
  ["                // Convert FormData to JSON object"];
  ["                for (const [key, value] of formData.entries()) {"];
  ["                    tokenData[key] = value;"];
  ["                }"];
  ["                "];
  ["                try {"];
  ["                    const response = await fetch('/api/createE2ESessionToken', {"];
  ["                        method: 'POST',"];
  ["                        headers: {"];
  ["                            'Content-Type': 'application/json'"];
  ["                        },"];
  ["                        body: JSON.stringify(tokenData)"];
  ["                    });"];
  ["                    "];
  ["                    if (!response.ok) {"];
  ["                        const errorData = await response.json();"];
  ["                        throw new Error(errorData.detail || 'Failed to create session token');"];
  ["                    }"];
  ["                    "];
  ["                    const result = await response.json();"];
  ["                    console.log(result);"];
  ["                    // Display success message with token"];
  ["                    createdToken.textContent = result.session_token;"];
  ["                    tokenSuccessContainer.style.display = 'block';"];
  ["                    "];
  ["                    // Scroll to token success message"];
  ["                    tokenSuccessContainer.scrollIntoView({ behavior: 'smooth', block: 'start' });"];
  ["                    "];
  ["                } catch (error) {"];
  ["                    console.error('Error creating session token:', error);"];
  ["                    showError(`Failed to create session token: ${error.message}`);"];
  ["                }"];
  ["            }"];
  ["            "];
  ["            function copyAgentId() {"];
  ["                const agentId = createdAgentId.textContent;"];
  ["                navigator.clipboard.writeText(agentId)"];
  ["                    .then(() => {"];
  ["                        alert('Agent ID copied to clipboard!');"];
  ["                    })"];
  ["                    .catch(err => {"];
  ["                        console.error('Could not copy text: ', err);"];
  ["                    });"];
  ["            }"];
  ["            "];
  ["            function copyToken() {"];
  ["                const token = createdToken.textContent;"];
  ["                navigator.clipboard.writeText(token)"];
  ["                    .then(() => {"];
  ["                        alert('Session token copied to clipboard!');"];
  ["                    })"];
  ["                    .catch(err => {"];
  ["                        console.error('Could not copy text: ', err);"];
  ["                    });"];
  ["            }"];
  ["        </script>"];
  ["    </body>"];
  ["    </html>"];
  ["    "]
]%list.

(** The line break and the double quote. *)
Definition LF : N := 10%N.
Definition DQ : N := 34%N.

Definition PAGE : str :=
  join [LF] (map (λ pieces, join [DQ] (map lit pieces)) PAGE_LINES).

Definition get_html (cfg : Config) : Async str :=
  Return (replace "TTS_API_KEY" (TTS_API_KEY cfg)
            (replace "SIMLI_API_KEY" (SIMLI_API_KEY cfg) PAGE)).

(** ** Routes: what the decorators add to a handler *)

Inductive Body :=
| JSONBody (j : json)
| HTMLBody (html : str).

Record HTTPResponse := { status : Z; body : Body }.

(** A JSON response is written as UTF-8; a body with a string that has no
    encoding is not sent, the route raises. *)
Definition json_response (status : Z) (content : json) : Async HTTPResponse :=
  if utf8_encodable content
  then Return {| status := status; body := JSONBody content |}
  else Raise SerializationError.

(** [response_model=M] over a handler that returns parsed JSON: the value
    is validated against [M] and what is sent is the model's own fields. *)
Definition response_model {A} (validate : json → option A) (serialize : A → json)
    (status : Z) (c : Async json) : Async HTTPResponse :=
  v ← c;
  match validate v with
  | Some a => json_response status (serialize a)
  | None => Raise ResponseValidationError
  end.

(** [response_model=M] over a handler that returns an instance of [M]. *)
Definition response_instance {A} (serialize : A → json)
    (status : Z) (c : Async A) : Async HTTPResponse :=
  a ← c; json_response status (serialize a).

(** [response_class=HTMLResponse]. *)
Definition html_response (c : Async str) : Async HTTPResponse :=
  html ← c; Return {| status := 200; body := HTMLBody html |}.

Inductive ClientRequest :=
| GET_api_faces
| POST_api_agent (agent : AgentCreate.t)
| POST_api_createE2ESessionToken (request : SessionTokenRequest.t)
| GET_root.

Definition app `{Pydantic} (cfg : Config) (r : ClientRequest) : Async HTTPResponse :=
  match r with
  | GET_api_faces =>
      response_model (List FaceOption.validate)
        (λ faces, JArr (FaceOption.serialize <$> faces)) 200 (get_faces cfg)
  | POST_api_agent agent =>
      response_instance AgentResponse.serialize 201 (create_agent agent)
  | POST_api_createE2ESessionToken request =>
      response_model SessionTokenResponse.validate SessionTokenResponse.serialize
        200 (create_e2e_session_token request)
  | GET_root => html_response (get_html cfg)
  end.

(** One request served: the upstream calls made, and the response or the
    exception the client's answer is built from. *)
Definition serve `{Pydantic} (upstream : Upstream)
    (cfg : Config) (r : ClientRequest) : list Request * result HTTPResponse :=
  run (answer upstream) (app cfg r).

(** The outbound call of the face listing and the one of the token route,
    as the handlers put them together. *)
Definition faces_call (cfg : Config) : Request :=
  {| method := GET;
     url := "https://api.simli.ai/getFaceIDs?getPublic=false";
     headers := [(lit "api-key", SIMLI_API_KEY cfg)];
     json_payload := None |}.

Definition token_call (request : SessionTokenRequest.t) : Request :=
  {| method := POST;
     url := "https://api.simli.ai/createE2ESessionToken";
     headers := [];
     json_payload :=
       Some (JObj (<[lit "simliAPIKey" := JStr (SessionTokenRequest.simliAPIKey request)]>
                  (<[lit "ttsAPIKey" := JStr (SessionTokenRequest.ttsAPIKey request)]> ∅))) |}.

(** The field names of the two response models. *)
Definition FaceOption_fields : gset str :=
  {[ lit "id"; lit "name"; lit "previewImage"; lit "previewVideo"; lit "createdAt" ]}.

Definition SessionTokenResponse_fields : gset str := {[ lit "session_token" ]}.

(** ** Sample data

    Concrete requests, configurations and upstream answers on which the
    properties below are evaluated. *)

Definition sample_cfg : Config :=
  {| SIMLI_API_KEY := "simli-key-123"; TTS_API_KEY := "tts-key-456" |}.

Definition sample_agent : AgentCreate.t :=
  {| AgentCreate.face_id := "tmp9i8bbq7c";
     AgentCreate.name := "Ann";
     AgentCreate.first_message := Some (lit "The first message you want the agent to say");
     AgentCreate.prompt :=
       Some (lit "The persona of the agent and the context of the conversation");
     AgentCreate.voice_provider := None;
     AgentCreate.voice_id := None;
     AgentCreate.voice_model := None;
     AgentCreate.language := None;
     AgentCreate.llm_endpoint := None;
     AgentCreate.max_idle_time := Some 300;
     AgentCreate.max_session_length := Some 3600 |}.

(** The same face and name, every other field different. *)
Definition sample_agent_verbose : AgentCreate.t :=
  {| AgentCreate.face_id := "tmp9i8bbq7c";
     AgentCreate.name := "Ann";
     AgentCreate.first_message := Some (lit "Hello");
     AgentCreate.prompt := None;
     AgentCreate.voice_provider := Some (lit "elevenlabs");
     AgentCreate.voice_id := Some (lit "v1");
     AgentCreate.voice_model := Some (lit "turbo");
     AgentCreate.language := Some (lit "en");
     AgentCreate.llm_endpoint := Some (lit "https://llm.example/v1");
     AgentCreate.max_idle_time := Some 10;
     AgentCreate.max_session_length := None |}.

Definition sample_token_request : SessionTokenRequest.t :=
  {| SessionTokenRequest.simliAPIKey := "caller-simli";
     SessionTokenRequest.ttsAPIKey := "caller-tts" |}.

Definition sample_face : FaceOption.t :=
  {| FaceOption.id := "tmp9i8bbq7c";
     FaceOption.name := "Ann";
     FaceOption.previewImage := "https://cdn.example/ann.png";
     FaceOption.previewVideo := None;
     FaceOption.createdAt := Some 1700000000 |}.

(** An upstream that gives every request that reaches it the same answer,
    and one that gives no answer. *)
Definition always (resp : Response) : Upstream := reached (λ _, Some resp).
Definition offline : Upstream := reached (λ _, None).

(** The lone surrogate U+D800, and the string that the JSON text
    [\ud800abc] stands for. *)
Definition lone_surrogate : N := 55296%N.
Definition surrogate_abc : str := lone_surrogate :: lit "abc".

(** An agent request, a token request and a listed face with that string. *)
Definition surrogate_agent : AgentCreate.t :=
  {| AgentCreate.face_id := surrogate_abc;
     AgentCreate.name := "Ann";
     AgentCreate.first_message := None;
     AgentCreate.prompt := None;
     AgentCreate.voice_provider := None;
     AgentCreate.voice_id := None;
     AgentCreate.voice_model := None;
     AgentCreate.language := None;
     AgentCreate.llm_endpoint := None;
     AgentCreate.max_idle_time := None;
     AgentCreate.max_session_length := None |}.

Definition surrogate_token_request : SessionTokenRequest.t :=
  {| SessionTokenRequest.simliAPIKey := surrogate_abc;
     SessionTokenRequest.ttsAPIKey := "caller-tts" |}.

Definition surrogate_face : FaceOption.t :=
  {| FaceOption.id := "tmp9i8bbq7c";
     FaceOption.name := surrogate_abc;
     FaceOption.previewImage := "https://cdn.example/ann.png";
     FaceOption.previewVideo := None;
     FaceOption.createdAt := None |}.

(** A face as an upstream may list it: no [previewVideo], no [createdAt],
    and a field [isPublic] that the model does not have. *)
Definition upstream_face : gmap str json :=
  <[lit "id" := JStr "tmp9i8bbq7c"]>
  (<[lit "name" := JStr "Ann"]>
  (<[lit "previewImage" := JStr "https://cdn.example/ann.png"]>
  (<[lit "isPublic" := JBool false]> ∅))).

(** A token answer with a field that the model does not have. *)
Definition upstream_token : gmap str json :=
  <[lit "session_token" := JStr "tok-1"]> (<[lit "expires_in" := JInt 3600]> ∅).

(** The text of a JSON document, written as the pieces between its double
    quotes. *)
Definition quoted (pieces : list string) : str := join [DQ] (map lit pieces).

Definition faces_200_extra : Response :=
  {| status_code := 200;
     text := quoted ["[{"; "id"; ": "; "tmp9i8bbq7c"; ", "; "name"; ": "; "Ann"; ", ";
                     "previewImage"; ": "; "https://cdn.example/ann.png"; ", ";
                     "isPublic"; ": false}]"];
     json_ := Some (JArr [JObj upstream_face]) |}.

Definition faces_200_no_image : Response :=
  {| status_code := 200;
     text := quoted ["[{"; "id"; ": "; "tmp9i8bbq7c"; ", "; "name"; ": "; "Ann"; "}]"];
     json_ := Some (JArr [JObj (<[lit "id" := JStr "tmp9i8bbq7c"]>
                              (<[lit "name" := JStr "Ann"]> ∅))]) |}.

Definition faces_201 : Response :=
  {| status_code := 201; text := "[]"; json_ := Some (JArr []) |}.

Definition faces_200_model : Response :=
  {| status_code := 200;
     text := quoted ["[{"; "id"; ": "; "tmp9i8bbq7c"; ", "; "name"; ": "; "Ann"; ", ";
                     "previewImage"; ": "; "https://cdn.example/ann.png"; ", ";
                     "previewVideo"; ": null, "; "createdAt"; ": 1700000000}]"];
     json_ := Some (JArr [FaceOption.serialize sample_face]) |}.

Definition faces_200_surrogate : Response :=
  {| status_code := 200;
     text := quoted ["[{"; "id"; ": "; "tmp9i8bbq7c"; ", "; "name"; ": "; "\ud800abc"; ", ";
                     "previewImage"; ": "; "https://cdn.example/ann.png"; ", ";
                     "previewVideo"; ": null, "; "createdAt"; ": null}]"];
     json_ := Some (JArr [FaceOption.serialize surrogate_face]) |}.

Definition token_200_extra : Response :=
  {| status_code := 200;
     text := quoted ["{"; "session_token"; ": "; "tok-1"; ", "; "expires_in"; ": 3600}"];
     json_ := Some (JObj upstream_token) |}.

Definition token_200_model : Response :=
  {| status_code := 200;
     text := quoted ["{"; "session_token"; ": "; "tok-1"; "}"];
     json_ := Some (JObj (<[lit "session_token" := JStr "tok-1"]> ∅)) |}.

Definition token_201 : Response :=
  {| status_code := 201;
     text := quoted ["{"; "session_token"; ": "; "tok-1"; "}"];
     json_ := Some (JObj (<[lit "session_token" := JStr "tok-1"]> ∅)) |}.

Definition unauthorized : Response :=
  {| status_code := 401; text := "Invalid API key"; json_ := None |}.

Definition no_content : Response :=
  {| status_code := 204; text := ""; json_ := None |}.

(** An environment in which the Simli key is the text of the other
    placeholder. *)
Definition environ_clash : gmap str str :=
  <[lit "SIMLI_API_KEY" := lit "TTS_API_KEY"]> (<[lit "TTS_API_KEY" := lit "tts-key-456"]> ∅).

(** ** Request bodies (lines 37-48, 56-58, 81, 99)

    A handler's parameter of a model type is read from the JSON body of the
    request. A body that the model rejects does not reach the handler. *)

(** A field [name: Optional[T] = default]: absent gives the default, an
    explicit [null] gives [None]. *)
Definition optional_or {A} (validate : json → option A) (default : option A)
    (m : gmap str json) (field : str) : option (option A) :=
  match m !! field with
  | None => Some default
  | Some JNull => Some None
  | Some j => Some <$> validate j
  end.

Definition AgentCreate_validate `{Pydantic} (j : json) : option AgentCreate.t :=
  m ← validate_dict j;
  face ← required validate_str m "face_id";
  n ← required validate_str m "name";
  msg ← optional_or validate_str
          (Some (lit "The first message you want the agent to say")) m "first_message";
  pr ← optional_or validate_str
         (Some (lit "The persona of the agent and the context of the conversation"))
         m "prompt";
  vp ← optional_or validate_str None m "voice_provider";
  vi ← optional_or validate_str None m "voice_id";
  vm ← optional_or validate_str None m "voice_model";
  lang ← optional_or validate_str None m "language";
  llm ← optional_or validate_str None m "llm_endpoint";
  idle ← optional_or validate_int (Some 300) m "max_idle_time";
  len ← optional_or validate_int (Some 3600) m "max_session_length";
  Some {| AgentCreate.face_id := face;
          AgentCreate.name := n;
          AgentCreate.first_message := msg;
          AgentCreate.prompt := pr;
          AgentCreate.voice_provider := vp;
          AgentCreate.voice_id := vi;
          AgentCreate.voice_model := vm;
          AgentCreate.language := lang;
          AgentCreate.llm_endpoint := llm;
          AgentCreate.max_idle_time := idle;
          AgentCreate.max_session_length := len |}.

Definition SessionTokenRequest_validate `{Pydantic} (j : json)
  : option SessionTokenRequest.t :=
  m ← validate_dict j;
  simli ← required validate_str m "simliAPIKey";
  tts ← required validate_str m "ttsAPIKey";
  Some {| SessionTokenRequest.simliAPIKey := simli;
          SessionTokenRequest.ttsAPIKey := tts |}.

(** The optional fields of [AgentCreate], and all of its fields. *)
Definition AgentCreate_optional_fields : list str :=
  [lit "first_message"; lit "prompt"; lit "voice_provider"; lit "voice_id";
   lit "voice_model"; lit "language"; lit "llm_endpoint"; lit "max_idle_time";
   lit "max_session_length"].

Definition AgentCreate_fields : list str :=
  lit "face_id" :: lit "name" :: AgentCreate_optional_fields.

(** A POST with a JSON body: turned down at the door, or handled. *)
Inductive Received :=
| Unprocessable
| Handled (out : list Request * result HTTPResponse).

Definition receive_agent `{Pydantic} (upstream : Upstream)
    (cfg : Config) (body : json) : Received :=
  match AgentCreate_validate body with
  | Some agent => Handled (serve upstream cfg (POST_api_agent agent))
  | None => Unprocessable
  end.

Definition receive_token `{Pydantic} (upstream : Upstream)
    (cfg : Config) (body : json) : Received :=
  match SessionTokenRequest_validate body with
  | Some request => Handled (serve upstream cfg (POST_api_createE2ESessionToken request))
  | None => Unprocessable
  end.

(** ** The page around its placeholders

    The literal of [get_html] names [SIMLI_API_KEY] in the token form (line
    423) and in the headers of the script's agent request (line 624), and
    [TTS_API_KEY] in the token form (line 428). These are the four runs of
    text around the three places. *)

#[local] Set Warnings "-abstract-large-number".




(** What a value of a field of [FaceOption] looks like when it has the
    declared type. *)
Definition FaceOption_typed (field : str) (v : json) : Prop :=
  (field ∈ [lit "id"; lit "name"; lit "previewImage"; lit "previewVideo"]
   ∧ ∃ s, v = JStr s)
  ∨ (field = lit "createdAt" ∧ ∃ z, v = JInt z)
  ∨ (field ∈ [lit "previewVideo"; lit "createdAt"] ∧ v = JNull).

(** An object in the shape of the model: the five fields of [FaceOption]
    and no others, each with a value of the declared type. *)
Definition FaceOption_shaped (j : json) : Prop :=
  ∃ m, j = JObj m
    ∧ dom m = FaceOption_fields
    ∧ ∀ k v, m !! k = Some v → FaceOption_typed k v.

(** The least body that creates an agent. *)
Definition sample_agent_body : gmap str json :=
  <[lit "face_id" := JStr "tmp9i8bbq7c"]> (<[lit "name" := JStr "Ann"]> ∅).

(** * Properties *)

Implicit Types (upstream : Upstream) (cfg : Config) (resp : Response).

(** ** Python strings *)

Lemma startswith_prefix (p s : str) :
  startswith p s = true ↔ ∃ r, s = p ++ r.
Proof.
  revert s. induction p as [|a p IH]; intros [|c s]; simpl.
  - split; eauto.
  - split; eauto.
  - split; [discriminate | intros [r Hr]; discriminate].
  - rewrite andb_true_iff, N.eqb_eq, IH. split.
    + intros [-> [r ->]]. eauto.
    + intros [r Hr]. injection Hr as -> ->. eauto.
Qed.

Lemma contains_substring (sub s : str) :
  contains sub s = true ↔ substring sub s.
Proof.
  unfold substring. induction s as [|c s IH].
  - simpl. rewrite orb_false_r, startswith_prefix. split.
    + intros [r Hr]. exists [], r. done.
    + intros [[|b before] [after Hs]]; [eauto |discriminate].
  - change (contains sub (c :: s)) with (startswith sub (c :: s) || contains sub s).
    rewrite orb_true_iff, startswith_prefix, IH. split.
    + intros [[r Hr] | (before & after & ->)].
      * exists [], r. done.
      * exists (c :: before), after. done.
    + intros [[|b before] [after Hs]].
      * left. eauto.
      * right. injection Hs as -> ->. eauto.
Qed.

Lemma not_contains_substring (sub s : str) :
  contains sub s = false ↔ ¬ substring sub s.
Proof. rewrite <- contains_substring. destruct (contains sub s); naive_solver. Qed.

(** The scan of [replace]: the three equations that define it. *)







(** ** Encoding *)

Lemma encodable_str_app (s t : str) :
  encodable_str (s ++ t) = encodable_str s && encodable_str t.
Proof. apply forallb_app. Qed.

Lemma encodable_str_take (n : nat) (s : str) :
  encodable_str s = true → encodable_str (take n s) = true.
Proof.
  intros Hs. rewrite <- (take_drop n s), encodable_str_app in Hs.
  by apply andb_true_iff in Hs as [Ht _].
Qed.

Lemma utf8_encodable_empty : utf8_encodable (JObj ∅) = true.
Proof. cbn [utf8_encodable]. by rewrite map_fold_empty. Qed.

Lemma utf8_encodable_insert (k : str) (v : json) (m : gmap str json) :
  m !! k = None →
  utf8_encodable (JObj (<[k:=v]> m)) =
    encodable_str k && utf8_encodable v && utf8_encodable (JObj m).
Proof.
  intros Hk. cbn [utf8_encodable].
  rewrite map_fold_insert_L; [done | | done].
  intros k1 k2 v1 v2 rest _ _ _.
  by destruct (encodable_str k1), (utf8_encodable v1),
    (encodable_str k2), (utf8_encodable v2), rest.
Qed.

Lemma AgentResponse_serialize_encodable (r : AgentResponse.t) :
  utf8_encodable (AgentResponse.serialize r) =
    encodable_str (AgentResponse.id r) && encodable_str (AgentResponse.face_id r)
    && encodable_str (AgentResponse.name r).
Proof.
  unfold AgentResponse.serialize.
  rewrite !utf8_encodable_insert, utf8_encodable_empty by by simpl_map.
  cbn [utf8_encodable].
  change (encodable_str (lit "id")) with true.
  change (encodable_str (lit "face_id")) with true.
  change (encodable_str (lit "name")) with true.
  cbn [andb]. by rewrite andb_true_r, andb_assoc.
Qed.

Lemma FaceOption_serialize_encodable (f : FaceOption.t) :
  utf8_encodable (FaceOption.serialize f) =
    encodable_str (FaceOption.id f) && encodable_str (FaceOption.name f)
    && encodable_str (FaceOption.previewImage f)
    && from_option encodable_str true (FaceOption.previewVideo f).
Proof.
  unfold FaceOption.serialize.
  rewrite !utf8_encodable_insert, utf8_encodable_empty by by simpl_map.
  change (encodable_str (lit "id")) with true.
  change (encodable_str (lit "name")) with true.
  change (encodable_str (lit "previewImage")) with true.
  change (encodable_str (lit "previewVideo")) with true.
  change (encodable_str (lit "createdAt")) with true.
  cbn [andb utf8_encodable].
  destruct (FaceOption.previewVideo f), (FaceOption.createdAt f);
    cbn [json_of_optional from_option utf8_encodable];
    by rewrite ?andb_true_r, ?andb_assoc.
Qed.

Lemma SessionTokenResponse_serialize_encodable (r : SessionTokenResponse.t) :
  utf8_encodable (SessionTokenResponse.serialize r) =
    encodable_str (SessionTokenResponse.session_token r).
Proof.
  unfold SessionTokenResponse.serialize.
  rewrite !utf8_encodable_insert, utf8_encodable_empty by by simpl_map.
  change (encodable_str (lit "session_token")) with true.
  cbn [andb utf8_encodable]. by rewrite andb_true_r.
Qed.

(** The token request can be sent exactly when both keys can be encoded. *)
Lemma sendable_token_call (request : SessionTokenRequest.t) :
  sendable (token_call request) =
    encodable_str (SessionTokenRequest.simliAPIKey request)
    && encodable_str (SessionTokenRequest.ttsAPIKey request).
Proof.
  unfold sendable, token_call. cbn [json_payload].
  rewrite !utf8_encodable_insert, utf8_encodable_empty by by simpl_map.
  change (encodable_str (lit "simliAPIKey")) with true.
  change (encodable_str (lit "ttsAPIKey")) with true.
  cbn [andb utf8_encodable]. by rewrite andb_true_r.
Qed.

(** ** The proxy routes *)

Section Proxy.
Context `{Pydantic}.

(** What the face listing does with the upstream's answer. *)
Lemma serve_faces upstream cfg resp :
  upstream (faces_call cfg) = Some resp →
  serve upstream cfg GET_api_faces =
    ([faces_call cfg],
     if bool_decide (status_code resp ≠ 200)
     then Raised (HTTPException (status_code resp)
                    ("Error fetching faces from Simli API: " ++ text resp))
     else match json_ resp with
          | None => Raised JSONDecodeError
          | Some j =>
              match List FaceOption.validate j with
              | Some faces =>
                  if utf8_encodable (JArr (FaceOption.serialize <$> faces))
                  then Returned
                         {| status := 200;
                            body := JSONBody (JArr (FaceOption.serialize <$> faces)) |}
                  else Raised SerializationError
              | None => Raised ResponseValidationError
              end
          end).
Proof.
  intros Hup. unfold serve.
  cbn [app run response_model get_faces client_get mbind Async_mbind Async_bind].
  fold (faces_call cfg). rewrite Hup.
  case_bool_decide; [done |].
  unfold Response_json. destruct (json_ resp) as [j|]; [| done].
  cbn [run mbind Async_mbind Async_bind].
  destruct (List FaceOption.validate j) as [faces|]; [| done].
  unfold json_response. by destruct (utf8_encodable _).
Qed.

(** What the token route does with the upstream's answer. *)
Lemma serve_token upstream cfg request resp :
  upstream (token_call request) = Some resp →
  serve upstream cfg (POST_api_createE2ESessionToken request) =
    ([token_call request],
     if bool_decide (status_code resp ≠ 200)
     then Raised (HTTPException (status_code resp)
                    ("Error creating session token: " ++ text resp))
     else match json_ resp with
          | None => Raised JSONDecodeError
          | Some j =>
              match SessionTokenResponse.validate j with
              | Some tok =>
                  if utf8_encodable (SessionTokenResponse.serialize tok)
                  then Returned
                         {| status := 200;
                            body := JSONBody (SessionTokenResponse.serialize tok) |}
                  else Raised SerializationError
              | None => Raised ResponseValidationError
              end
          end).
Proof.
  intros Hup. pose proof (answer_sendable upstream _ _ Hup) as Hsend.
  unfold sendable, token_call in Hsend. cbn [json_payload] in Hsend.
  unfold serve, app, response_model, create_e2e_session_token, client_post.
  rewrite Hsend. cbn [run mbind Async_mbind Async_bind].
  fold (token_call request). rewrite Hup.
  case_bool_decide; [done |].
  unfold Response_json. destruct (json_ resp) as [j|]; [| done].
  cbn [run mbind Async_mbind Async_bind].
  destruct (SessionTokenResponse.validate j) as [tok|]; [| done].
  unfold json_response.
  by destruct (utf8_encodable (SessionTokenResponse.serialize tok)).
Qed.

(** A value that is a model's own serialisation passes the model's
    validation and comes back as it was. *)
Lemma FaceOption_validate_serialize (f : FaceOption.t) :
  FaceOption.validate (FaceOption.serialize f) = Some f.
Proof.
  destruct f as [i n img vid at_].
  unfold FaceOption.validate, FaceOption.serialize, required, optional.
  rewrite validate_dict_JObj. simpl. simpl_map. simpl.
  rewrite !validate_str_JStr. simpl.
  destruct vid as [v|], at_ as [z|]; simpl;
    rewrite ?validate_str_JStr, ?validate_int_JInt; reflexivity.
Qed.

Lemma SessionTokenResponse_validate_serialize (r : SessionTokenResponse.t) :
  SessionTokenResponse.validate (SessionTokenResponse.serialize r) = Some r.
Proof.
  destruct r as [tok].
  unfold SessionTokenResponse.validate, SessionTokenResponse.serialize, required.
  rewrite validate_dict_JObj. simpl.
  rewrite lookup_insert_eq. simpl. by rewrite validate_str_JStr.
Qed.

(** What is sent for a face has the model's fields and no others. *)
Lemma FaceOption_serialize_fields (f : FaceOption.t) :
  ∃ m, FaceOption.serialize f = JObj m ∧ dom m = FaceOption_fields.
Proof.
  eexists. split; [reflexivity |].
  rewrite !dom_insert_L, dom_empty_L. unfold FaceOption_fields. set_solver.
Qed.

Lemma SessionTokenResponse_serialize_fields (r : SessionTokenResponse.t) :
  ∃ m, SessionTokenResponse.serialize r = JObj m ∧ dom m = SessionTokenResponse_fields.
Proof.
  eexists. split; [reflexivity |].
  rewrite !dom_insert_L, dom_empty_L. unfold SessionTokenResponse_fields. set_solver.
Qed.

(** An object without a required field is rejected. *)
Lemma FaceOption_validate_missing (m : gmap str json) (field : str) :
  field ∈ [lit "id"; lit "name"; lit "previewImage"] →
  m !! field = None → FaceOption.validate (JObj m) = None.
Proof.
  intros Hfield Hm. unfold FaceOption.validate, required.
  rewrite validate_dict_JObj. simpl.
  repeat (apply elem_of_cons in Hfield as [-> | Hfield]);
    [| | | by apply elem_of_nil in Hfield].
  - by rewrite Hm.
  - rewrite Hm. simpl. by destruct (m !! lit "id" ≫= validate_str).
  - rewrite Hm. simpl.
    destruct (m !! lit "id" ≫= validate_str); [simpl | done].
    by destruct (m !! lit "name" ≫= validate_str).
Qed.

Lemma SessionTokenResponse_validate_missing (m : gmap str json) :
  m !! lit "session_token" = None → SessionTokenResponse.validate (JObj m) = None.
Proof.
  intros Hm. unfold SessionTokenResponse.validate, required.
  rewrite validate_dict_JObj. simpl. by rewrite Hm.
Qed.

(** The token route sends its one request, whatever becomes of it, when
    the request can be put on the wire, and none when it cannot. *)
Lemma serve_token_calls upstream cfg request :
  (serve upstream cfg (POST_api_createE2ESessionToken request)).1 =
    if sendable (token_call request) then [token_call request] else [].
Proof.
  destruct (sendable (token_call request)) eqn:Hsend.
  - destruct (upstream (token_call request)) as [resp|] eqn:Hup.
    + by rewrite (serve_token _ _ _ resp).
    + unfold sendable, token_call in Hsend. cbn [json_payload] in Hsend.
      unfold serve, app, response_model, create_e2e_session_token, client_post.
      rewrite Hsend. cbn [run mbind Async_mbind Async_bind].
      fold (token_call request). by rewrite Hup.
  - unfold sendable, token_call in Hsend. cbn [json_payload] in Hsend.
    unfold serve, app, response_model, create_e2e_session_token, client_post.
    by rewrite Hsend.
Qed.

(** An object in the shape of the model is the serialisation of a face. *)
Lemma FaceOption_shaped_serialize (j : json) :
  FaceOption_shaped j → ∃ f, j = FaceOption.serialize f.
Proof.
  intros (m & -> & Hdom & Htyped).
  assert (Hin : ∀ k, k ∈ FaceOption_fields → ∃ v, m !! k = Some v ∧ FaceOption_typed k v).
  { intros k Hk. rewrite <- Hdom in Hk. apply elem_of_dom in Hk as [v Hv]. eauto. }
  destruct (Hin (lit "id")) as (vi & Hi & Hti); [unfold FaceOption_fields; set_solver |].
  destruct (Hin (lit "name")) as (vn & Hn & Htn); [unfold FaceOption_fields; set_solver |].
  destruct (Hin (lit "previewImage")) as (vp & Hp & Htp);
    [unfold FaceOption_fields; set_solver |].
  destruct (Hin (lit "previewVideo")) as (vv & Hv & Htv);
    [unfold FaceOption_fields; set_solver |].
  destruct (Hin (lit "createdAt")) as (vc & Hc & Htc);
    [unfold FaceOption_fields; set_solver |].
  assert (∃ s, vi = JStr s) as [i ->].
  { destruct Hti as [[_ Hs] | [[Hk _] | [Hk _]]]; [done | done |].
    exfalso. repeat (apply elem_of_cons in Hk as [Hk | Hk]; [done |]).
    by apply elem_of_nil in Hk. }
  assert (∃ s, vn = JStr s) as [n ->].
  { destruct Htn as [[_ Hs] | [[Hk _] | [Hk _]]]; [done | done |].
    exfalso. repeat (apply elem_of_cons in Hk as [Hk | Hk]; [done |]).
    by apply elem_of_nil in Hk. }
  assert (∃ s, vp = JStr s) as [img ->].
  { destruct Htp as [[_ Hs] | [[Hk _] | [Hk _]]]; [done | done |].
    exfalso. repeat (apply elem_of_cons in Hk as [Hk | Hk]; [done |]).
    by apply elem_of_nil in Hk. }
  assert (∃ vid, vv = json_of_optional JStr vid) as [vid ->].
  { destruct Htv as [[_ [s ->]] | [[Hk _] | [_ ->]]]; [by exists (Some s) | done |].
    by exists None. }
  assert (∃ at_, vc = json_of_optional JInt at_) as [at_ ->].
  { destruct Htc as [[Hk _] | [[_ [z ->]] | [_ ->]]]; [| by exists (Some z) | by exists None].
    exfalso. repeat (apply elem_of_cons in Hk as [Hk | Hk]; [done |]).
    by apply elem_of_nil in Hk. }
  exists {| FaceOption.id := i; FaceOption.name := n; FaceOption.previewImage := img;
            FaceOption.previewVideo := vid; FaceOption.createdAt := at_ |}.
  unfold FaceOption.serialize. f_equal. apply map_eq. intros k.
  cbn [FaceOption.id FaceOption.name FaceOption.previewImage
       FaceOption.previewVideo FaceOption.createdAt].
  destruct (decide (k = lit "id")) as [-> | ?]; [by simpl_map |].
  destruct (decide (k = lit "name")) as [-> | ?]; [by simpl_map |].
  destruct (decide (k = lit "previewImage")) as [-> | ?]; [by simpl_map |].
  destruct (decide (k = lit "previewVideo")) as [-> | ?]; [by simpl_map |].
  destruct (decide (k = lit "createdAt")) as [-> | ?]; [by simpl_map |].
  rewrite !lookup_insert_ne, lookup_empty by done.
  apply not_elem_of_dom. rewrite Hdom. unfold FaceOption_fields. set_solver.
Qed.

(** The serialisation of a face is in the shape of the model. *)
Lemma FaceOption_serialize_shaped (f : FaceOption.t) :
  FaceOption_shaped (FaceOption.serialize f).
Proof.
  eexists. split; [reflexivity |]. split.
  { rewrite !dom_insert_L, dom_empty_L. unfold FaceOption_fields. set_solver. }
  intros k v Hk. unfold FaceOption_typed.
  destruct (decide (k = lit "id")) as [-> | ?];
    [simplify_map_eq; left; split; [set_solver | eauto] |].
  destruct (decide (k = lit "name")) as [-> | ?];
    [simplify_map_eq; left; split; [set_solver | eauto] |].
  destruct (decide (k = lit "previewImage")) as [-> | ?];
    [simplify_map_eq; left; split; [set_solver | eauto] |].
  destruct (decide (k = lit "previewVideo")) as [-> | ?].
  { simplify_map_eq. destruct (FaceOption.previewVideo f); cbn;
      [left | right; right]; (split; [set_solver | eauto]). }
  destruct (decide (k = lit "createdAt")) as [-> | ?].
  { simplify_map_eq. destruct (FaceOption.createdAt f); cbn;
      [right; left | right; right]; (split; [set_solver | eauto]). }
  by rewrite !lookup_insert_ne, lookup_empty in Hk by done.
Qed.


(** C3. When the upstream answers the face listing or the token request
    with a status outside 200..299, the route ends in an [HTTPException]
    that carries the same status, and whose detail contains the text of the
    upstream's answer. *)
Theorem upstream_failure_is_propagated upstream cfg request resp :
  ¬ (200 ≤ status_code resp ≤ 299) →
  (upstream (faces_call cfg) = Some resp →
   ∃ detail,
     serve upstream cfg GET_api_faces =
       ([faces_call cfg], Raised (HTTPException (status_code resp) detail))
     ∧ substring (text resp) detail)
  ∧ (upstream (token_call request) = Some resp →
     ∃ detail,
       serve upstream cfg (POST_api_createE2ESessionToken request) =
         ([token_call request], Raised (HTTPException (status_code resp) detail))
       ∧ substring (text resp) detail).
Proof.
  intros Hstatus. split; intros Hup.
  - rewrite (serve_faces _ _ resp Hup), bool_decide_true by lia.
    eexists. split; [reflexivity |]. eexists _, []. by rewrite app_nil_r.
  - rewrite (serve_token _ _ _ resp Hup), bool_decide_true by lia.
    eexists. split; [reflexivity |]. eexists _, []. by rewrite app_nil_r.
Qed.

(** C8. A status from 201 to 299 is a failure as well: both routes raise an
    [HTTPException] with that status, and no body is returned. *)
Theorem other_2xx_is_a_failure upstream cfg request resp :
  201 ≤ status_code resp ≤ 299 →
  (upstream (faces_call cfg) = Some resp →
   serve upstream cfg GET_api_faces =
     ([faces_call cfg],
      Raised (HTTPException (status_code resp)
                ("Error fetching faces from Simli API: " ++ text resp))))
  ∧ (upstream (token_call request) = Some resp →
     serve upstream cfg (POST_api_createE2ESessionToken request) =
       ([token_call request],
        Raised (HTTPException (status_code resp)
                  ("Error creating session token: " ++ text resp)))).
Proof.
  intros Hstatus. split; intros Hup.
  - by rewrite (serve_faces _ _ resp Hup), bool_decide_true by lia.
  - by rewrite (serve_token _ _ _ resp Hup), bool_decide_true by lia.
Qed.

(** C2, as amended. When the upstream answers the face listing with status
    200 and a JSON array of faces in the shape of the model (each object
    has the five fields of [FaceOption] and no others, with values of the
    declared types), and every string in it can be encoded as UTF-8, the
    route answers 200 with that same JSON array. *)
Theorem faces_passthrough upstream cfg resp (l : list json) :
  upstream (faces_call cfg) = Some resp →
  status_code resp = 200 →
  json_ resp = Some (JArr l) →
  Forall FaceOption_shaped l →
  utf8_encodable (JArr l) = true →
  serve upstream cfg GET_api_faces =
    ([faces_call cfg], Returned {| status := 200; body := JSONBody (JArr l) |}).
Proof.
  intros Hup Hstatus Hjson Hshaped Henc.
  assert (∃ faces, l = FaceOption.serialize <$> faces) as [faces ->].
  { clear Hjson Henc. induction Hshaped as [|j l Hj _ [faces ->]]; [by exists [] |].
    destruct (FaceOption_shaped_serialize j Hj) as [f ->]. by exists (f :: faces). }
  rewrite (serve_faces _ _ resp Hup), bool_decide_false, Hjson by lia.
  unfold List.
  by rewrite (mapM_fmap_Some _ _ _ FaceOption_validate_serialize), Henc.
Qed.

(** C4, as amended. For a request whose two keys can be encoded as UTF-8,
    the token route makes one upstream call: a POST to the session-token
    endpoint whose JSON body is an object of exactly the two fields
    [simliAPIKey] and [ttsAPIKey] with the caller's values. When the
    upstream answers it with status 200 and an object of the one field
    [session_token] holding a string that can be encoded, the route answers
    200 with that same object. *)
Theorem session_token_forwarded upstream cfg request :
  encodable_str (SessionTokenRequest.simliAPIKey request) = true →
  encodable_str (SessionTokenRequest.ttsAPIKey request) = true →
  (∃ payload : gmap str json,
     (serve upstream cfg (POST_api_createE2ESessionToken request)).1 =
       [ {| method := POST;
            url := "https://api.simli.ai/createE2ESessionToken";
            headers := [];
            json_payload := Some (JObj payload) |} ]
     ∧ dom payload = {[ lit "simliAPIKey"; lit "ttsAPIKey" ]}
     ∧ payload !! lit "simliAPIKey" =
         Some (JStr (SessionTokenRequest.simliAPIKey request))
     ∧ payload !! lit "ttsAPIKey" =
         Some (JStr (SessionTokenRequest.ttsAPIKey request)))
  ∧ (∀ resp token,
       upstream (token_call request) = Some resp →
       status_code resp = 200 →
       json_ resp = Some (JObj (<[lit "session_token" := JStr token]> ∅)) →
       encodable_str token = true →
       (serve upstream cfg (POST_api_createE2ESessionToken request)).2 =
         Returned {| status := 200;
                     body := JSONBody (JObj (<[lit "session_token" := JStr token]> ∅)) |}).
Proof.
  intros Hsimli Htts. split.
  - eexists. split.
    { by rewrite serve_token_calls, sendable_token_call, Hsimli, Htts. }
    split; [| by simpl_map].
    rewrite !dom_insert_L, dom_empty_L. set_solver.
  - intros resp token Hup Hstatus Hjson Htoken.
    rewrite (serve_token _ _ _ resp Hup), bool_decide_false, Hjson by lia.
    change (JObj (<[lit "session_token" := JStr token]> ∅))
      with (SessionTokenResponse.serialize {| SessionTokenResponse.session_token := token |}).
    rewrite SessionTokenResponse_validate_serialize,
      SessionTokenResponse_serialize_encodable.
    cbn [SessionTokenResponse.session_token]. by rewrite Htoken.
Qed.

(** C9. What the two proxy routes return on success went through the
    response model: every object of the face list has the fields of
    [FaceOption] and no others, and the token response has the one field
    [session_token]; and an upstream body with status 200 in which a
    required field ([id], [name], [previewImage]; [session_token]) is
    missing ends in a validation error on the server. *)
Theorem responses_follow_models upstream cfg request resp :
  (upstream (faces_call cfg) = Some resp →
   (∀ calls out,
      serve upstream cfg GET_api_faces = (calls, Returned out) →
      status out = 200 ∧
      ∃ l, body out = JSONBody (JArr l)
           ∧ Forall (λ j, ∃ m, j = JObj m ∧ dom m = FaceOption_fields) l)
   ∧ (∀ l m field,
        status_code resp = 200 → json_ resp = Some (JArr l) →
        JObj m ∈ l →
        field ∈ [lit "id"; lit "name"; lit "previewImage"] →
        m !! field = None →
        serve upstream cfg GET_api_faces =
          ([faces_call cfg], Raised ResponseValidationError)))
  ∧ (upstream (token_call request) = Some resp →
     (∀ calls out,
        serve upstream cfg (POST_api_createE2ESessionToken request) = (calls, Returned out) →
        status out = 200 ∧
        ∃ m, body out = JSONBody (JObj m) ∧ dom m = SessionTokenResponse_fields)
     ∧ (∀ m,
          status_code resp = 200 → json_ resp = Some (JObj m) →
          m !! lit "session_token" = None →
          serve upstream cfg (POST_api_createE2ESessionToken request) =
            ([token_call request], Raised ResponseValidationError))).
Proof.
  split; intros Hup.
  - rewrite (serve_faces _ _ resp Hup). split.
    + intros calls out Hout. case_bool_decide; [done |].
      destruct (json_ resp) as [j|]; [| done].
      destruct (List FaceOption.validate j) as [faces|]; [| done].
      destruct (utf8_encodable (JArr (FaceOption.serialize <$> faces))); [| done].
      injection Hout as _ <-. cbn [status body]. split; [done |].
      eexists. split; [reflexivity |].
      apply Forall_fmap, Forall_forall. intros f _.
      apply FaceOption_serialize_fields.
    + intros l m field Hstatus Hjson Hin Hfield Hm.
      rewrite bool_decide_false, Hjson by lia. unfold List.
      rewrite (mapM_None_2 FaceOption.validate l); [done |].
      apply Exists_exists. exists (JObj m). split; [done |].
      by apply (FaceOption_validate_missing m field).
  - rewrite (serve_token _ _ _ resp Hup). split.
    + intros calls out Hout. case_bool_decide; [done |].
      destruct (json_ resp) as [j|]; [| done].
      destruct (SessionTokenResponse.validate j) as [tok|]; [| done].
      destruct (utf8_encodable (SessionTokenResponse.serialize tok)); [| done].
      injection Hout as _ <-. cbn [status body]. split; [done |].
      destruct (SessionTokenResponse_serialize_fields tok) as (m & -> & Hdom).
      by exists m.
    + intros m Hstatus Hjson Hm.
      rewrite bool_decide_false, Hjson by lia.
      by rewrite SessionTokenResponse_validate_missing.
Qed.

End Proxy.

(** ** Agent creation *)

(** The answer of the agent route, written out. *)
Lemma serve_agent `{Pydantic} upstream cfg agent :
  serve upstream cfg (POST_api_agent agent) =
    ([], let r := {| AgentResponse.id := "agent-" ++ take 8 (AgentCreate.face_id agent);
                     AgentResponse.face_id := AgentCreate.face_id agent;
                     AgentResponse.name := AgentCreate.name agent |} in
         if utf8_encodable (AgentResponse.serialize r)
         then Returned {| status := 201; body := JSONBody (AgentResponse.serialize r) |}
         else Raised SerializationError).
Proof.
  unfold serve, app, response_instance, create_agent, json_response, slice_to.
  cbn [run mbind Async_mbind Async_bind]. cbv zeta.
  by destruct (utf8_encodable _).
Qed.

(** C1, as amended. For an agent request whose [face_id] and [name] can be
    encoded as UTF-8, [POST /api/agent] answers 201 with a JSON object of
    the three fields [id], [face_id] and [name]: [face_id] and [name] are
    those of the request, and [id] is [agent-] followed by the first eight
    characters of [face_id], or by all of [face_id] when that is shorter. *)
Theorem create_agent_response `{Pydantic} upstream cfg agent :
  encodable_str (AgentCreate.face_id agent) = true →
  encodable_str (AgentCreate.name agent) = true →
  ∃ sent : gmap str json,
    serve upstream cfg (POST_api_agent agent) =
      ([], Returned {| status := 201; body := JSONBody (JObj sent) |})
    ∧ dom sent = {[ lit "id"; lit "face_id"; lit "name" ]}
    ∧ sent !! lit "face_id" = Some (JStr (AgentCreate.face_id agent))
    ∧ sent !! lit "name" = Some (JStr (AgentCreate.name agent))
    ∧ ((8 ≤ length (AgentCreate.face_id agent))%nat →
       ∃ first8 rest : str,
         AgentCreate.face_id agent = first8 ++ rest
         ∧ length first8 = 8%nat
         ∧ sent !! lit "id" = Some (JStr ("agent-" ++ first8)))
    ∧ ((length (AgentCreate.face_id agent) < 8)%nat →
       sent !! lit "id" = Some (JStr ("agent-" ++ AgentCreate.face_id agent))).
Proof.
  intros Hface Hname. eexists. split.
  { rewrite serve_agent. cbv zeta. rewrite AgentResponse_serialize_encodable.
    cbn [AgentResponse.id AgentResponse.face_id AgentResponse.name].
    rewrite encodable_str_app, (encodable_str_take 8 _ Hface), Hface, Hname.
    reflexivity. }
  cbn [AgentResponse.id AgentResponse.face_id AgentResponse.name].
  split; [rewrite !dom_insert_L, dom_empty_L; set_solver |].
  split; [by simpl_map |]. split; [by simpl_map |]. split.
  - intros Hlen.
    exists (take 8 (AgentCreate.face_id agent)), (drop 8 (AgentCreate.face_id agent)).
    rewrite take_drop, length_take. split; [done |]. split; [lia | by simpl_map].
  - intros Hlen. simpl_map. by rewrite take_ge by lia.
Qed.

(** C5. Agent creation makes no upstream call, and its answer is the same
    whatever the upstream, the configured keys and the validator are: it is
    a function of the request alone. *)
Theorem create_agent_is_pure (P1 P2 : Pydantic) upstream1 upstream2 cfg1 cfg2 agent :
  (@serve P1 upstream1 cfg1 (POST_api_agent agent)).1 = []
  ∧ @serve P1 upstream1 cfg1 (POST_api_agent agent) =
    @serve P2 upstream2 cfg2 (POST_api_agent agent).
Proof.
  rewrite !serve_agent. split; [reflexivity |]. reflexivity.
Qed.

(** C10. Two requests with the same [face_id] and [name] get the same
    answer, whatever their other fields are. *)
Theorem create_agent_reads_face_id_and_name `{Pydantic} upstream cfg
    (agent1 agent2 : AgentCreate.t) :
  AgentCreate.face_id agent1 = AgentCreate.face_id agent2 →
  AgentCreate.name agent1 = AgentCreate.name agent2 →
  serve upstream cfg (POST_api_agent agent1) = serve upstream cfg (POST_api_agent agent2).
Proof.
  intros Hface Hname. by rewrite !serve_agent, Hface, Hname.
Qed.

(** ** The root route and the configuration *)


(** ** The properties on the sample data *)

(** C1 on [sample_agent], whose [face_id] has eleven characters. *)
Lemma create_agent_response_witness :
  ∃ sent : gmap str json,
    serve offline sample_cfg (POST_api_agent sample_agent) =
      ([], Returned {| status := 201; body := JSONBody (JObj sent) |})
    ∧ sent !! lit "id" = Some (JStr ("agent-" ++ "tmp9i8bb")).
Proof.
  destruct (create_agent_response offline sample_cfg sample_agent eq_refl eq_refl)
    as (sent & Hserve & _ & _ & _ & Hlong & _).
  exists sent. split; [exact Hserve |].
  destruct Hlong as (first8 & rest & Hsplit & Hlen & ->); [vm_compute; lia |].
  apply (f_equal (take 8)) in Hsplit. rewrite take_app_length' in Hsplit by done.
  by rewrite <- Hsplit.
Defined.

(** C10 on two requests that differ in every field but [face_id] and [name]. *)
Lemma create_agent_reads_face_id_and_name_witness :
  serve offline sample_cfg (POST_api_agent sample_agent) =
  serve offline sample_cfg (POST_api_agent sample_agent_verbose).
Proof. apply create_agent_reads_face_id_and_name; reflexivity. Defined.

(** C3 on an upstream that answers 401. *)
Lemma upstream_failure_is_propagated_witness :
  ∃ detail,
    serve (always unauthorized) sample_cfg GET_api_faces =
      ([faces_call sample_cfg], Raised (HTTPException 401 detail))
    ∧ substring "Invalid API key" detail.
Proof.
  refine (proj1 (upstream_failure_is_propagated (always unauthorized) sample_cfg
                   sample_token_request unauthorized _) eq_refl).
  simpl. lia.
Defined.

(** C8 on an upstream that answers 204. *)
Lemma other_2xx_is_a_failure_witness :
  serve (always no_content) sample_cfg (POST_api_createE2ESessionToken sample_token_request) =
    ([token_call sample_token_request],
     Raised (HTTPException 204 ("Error creating session token: " ++ ""))).
Proof.
  refine (proj2 (other_2xx_is_a_failure (always no_content) sample_cfg
                   sample_token_request no_content _) eq_refl).
  simpl. lia.
Defined.

(** C2 on an upstream that lists one face in the shape of the model. *)
Lemma faces_passthrough_witness :
  serve (always faces_200_model) sample_cfg GET_api_faces =
    ([faces_call sample_cfg],
     Returned {| status := 200;
                 body := JSONBody (JArr [FaceOption.serialize sample_face]) |}).
Proof.
  apply (faces_passthrough (always faces_200_model) sample_cfg faces_200_model
           [FaceOption.serialize sample_face]).
  - reflexivity.
  - reflexivity.
  - reflexivity.
  - repeat constructor. apply FaceOption_serialize_shaped.
  - vm_compute. reflexivity.
Defined.

(** C4 on an upstream that answers with a token and nothing else. *)
Lemma session_token_forwarded_witness :
  (serve (always token_200_model) sample_cfg
     (POST_api_createE2ESessionToken sample_token_request)).2 =
    Returned {| status := 200;
                body := JSONBody (JObj (<[lit "session_token" := JStr "tok-1"]> ∅)) |}.
Proof.
  apply (proj2 (session_token_forwarded (always token_200_model) sample_cfg
                  sample_token_request eq_refl eq_refl) token_200_model (lit "tok-1"));
    reflexivity.
Defined.

(** C9 on a listed face without [previewImage]. *)
Lemma responses_follow_models_witness :
  serve (always faces_200_no_image) sample_cfg GET_api_faces =
    ([faces_call sample_cfg], Raised ResponseValidationError).
Proof.
  eapply (proj2 (proj1 (responses_follow_models (always faces_200_no_image) sample_cfg
                          sample_token_request faces_200_no_image) eq_refl)
            _ _ (lit "previewImage")).
  - reflexivity.
  - reflexivity.
  - apply list_elem_of_here.
  - set_solver.
  - by simpl_map.
Defined.


(** ** Where the specification and the code part *)

(** C1 does not hold as stated: an agent request whose [face_id] holds
    a lone surrogate reaches the handler, and the answer cannot be written:
    the route ends in the serialisation error, not in 201. *)
Lemma create_agent_unencodable :
  encodable_str (AgentCreate.face_id surrogate_agent) = false
  ∧ serve offline sample_cfg (POST_api_agent surrogate_agent) =
      ([], Raised SerializationError).
Proof. split; by vm_compute. Qed.

(** C2 does not hold as stated: an upstream answer 201 to the face listing
    is turned into an error; of an answer 200 the route sends the model's
    fields, not the upstream's ([isPublic] is dropped, [previewVideo]
    appears as [null]); and an answer 200 in the shape of the model with a
    lone surrogate in a name is not passed on, the route ends in the
    serialisation error. *)
Lemma faces_not_passthrough :
  (serve (always faces_201) sample_cfg GET_api_faces).2 =
    Raised (HTTPException 201 ("Error fetching faces from Simli API: " ++ "[]"))
  ∧ (∃ sent : gmap str json,
      (serve (always faces_200_extra) sample_cfg GET_api_faces).2 =
        Returned {| status := 200; body := JSONBody (JArr [JObj sent]) |}
      ∧ upstream_face !! lit "isPublic" = Some (JBool false)
      ∧ sent !! lit "isPublic" = None
      ∧ upstream_face !! lit "previewVideo" = None
      ∧ sent !! lit "previewVideo" = Some JNull)
  ∧ (json_ faces_200_surrogate = Some (JArr [FaceOption.serialize surrogate_face])
     ∧ serve (always faces_200_surrogate) sample_cfg GET_api_faces =
         ([faces_call sample_cfg], Raised SerializationError)).
Proof.
  split; [by vm_compute |]. split.
  - eexists. split; [by vm_compute |]. by vm_compute.
  - split; [reflexivity | by vm_compute].
Qed.

(** C4 does not hold as stated: an upstream answer 201 to the token request
    is turned into an error; of an answer 200 the route sends the one field
    of the model ([expires_in] is dropped); and a request whose key holds a
    lone surrogate is not sent at all. *)
Lemma session_token_not_passthrough :
  (serve (always token_201) sample_cfg
     (POST_api_createE2ESessionToken sample_token_request)).2 =
    Raised (HTTPException 201 ("Error creating session token: " ++ text token_201))
  ∧ (∃ sent : gmap str json,
      (serve (always token_200_extra) sample_cfg
         (POST_api_createE2ESessionToken sample_token_request)).2 =
        Returned {| status := 200; body := JSONBody (JObj sent) |}
      ∧ upstream_token !! lit "expires_in" = Some (JInt 3600)
      ∧ sent !! lit "expires_in" = None)
  ∧ serve (always token_200_model) sample_cfg
      (POST_api_createE2ESessionToken surrogate_token_request) =
      ([], Raised UnicodeEncodeError).
Proof.
  split; [by vm_compute |]. split.
  - eexists. split; [by vm_compute |]. by vm_compute.
  - by vm_compute.
Qed.

(** C6: the code loses the Simli key. With [SIMLI_API_KEY] set to the text
    [TTS_API_KEY], the second substitution rewrites the key that the first
    one wrote, and the document that [GET /] sends does not contain the
    configured Simli key. *)
Lemma root_page_loses_simli_key :
  ∃ html,
    SIMLI_API_KEY (module_init environ_clash).2 = "TTS_API_KEY"
    ∧ serve offline (module_init environ_clash).2 GET_root =
        ([], Returned {| status := 200; body := HTMLBody html |})
    ∧ ¬ substring (SIMLI_API_KEY (module_init environ_clash).2) html.
Proof.
  eexists. split; [by vm_compute |]. split; [reflexivity |].
  apply not_contains_substring. vm_compute. reflexivity.
Qed.

(** ** Further properties *)

(** A key that is set to the empty string is treated as one that is not
    set: [not] holds of the empty string. *)
Theorem empty_key_falls_back (environ : gmap str str) :
  getenv environ "SIMLI_API_KEY" = Some [] →
  SIMLI_API_KEY (module_init environ).2 = "YOUR_API_KEY_HERE".
Proof.
  intros Hempty. unfold module_init. rewrite Hempty. simpl.
  by destruct (or_default (getenv environ "TTS_API_KEY") _ _).
Qed.

Lemma empty_key_falls_back_witness :
  SIMLI_API_KEY (module_init (<[lit "SIMLI_API_KEY" := []]> ∅)).2 = "YOUR_API_KEY_HERE".
Proof. apply empty_key_falls_back. reflexivity. Defined.

(** An upstream answer 200 whose body is no JSON is not passed on: the
    handler ends in the decoder's exception. *)
Theorem undecodable_body_is_an_error `{Pydantic} upstream cfg resp :
  upstream (faces_call cfg) = Some resp →
  status_code resp = 200 →
  json_ resp = None →
  serve upstream cfg GET_api_faces = ([faces_call cfg], Raised JSONDecodeError).
Proof.
  intros Hup Hstatus Hjson.
  by rewrite (serve_faces _ _ resp Hup), bool_decide_false, Hjson by lia.
Qed.

Lemma undecodable_body_is_an_error_witness :
  serve (always {| status_code := 200; text := "<html>"; json_ := None |})
    sample_cfg GET_api_faces = ([faces_call sample_cfg], Raised JSONDecodeError).
Proof. by apply undecodable_body_is_an_error with (resp := Build_Response 200 "<html>" None). Defined.

(** ** The page, in full *)






(** ** The configuration, further *)

(** Whatever the environment holds, both keys are non-empty after the
    module body has run. *)
Theorem configured_keys_are_never_empty (environ : gmap str str) :
  SIMLI_API_KEY (module_init environ).2 ≠ []
  ∧ TTS_API_KEY (module_init environ).2 ≠ [].
Proof.
  unfold module_init, or_default.
  destruct (getenv environ "SIMLI_API_KEY") as [[|c1 k1]|];
    destruct (getenv environ "TTS_API_KEY") as [[|c2 k2]|]; by vm_compute.
Qed.

(** Keys that are set to non-empty values are taken as they are, and
    nothing is printed. *)
Theorem set_keys_are_taken_as_they_are (environ : gmap str str) (simli tts : str) :
  getenv environ "SIMLI_API_KEY" = Some simli → simli ≠ [] →
  getenv environ "TTS_API_KEY" = Some tts → tts ≠ [] →
  module_init environ = ([], {| SIMLI_API_KEY := simli; TTS_API_KEY := tts |}).
Proof.
  intros Hs Hsne Ht Htne. unfold module_init. rewrite Hs, Ht.
  by destruct simli, tts.
Qed.

Lemma set_keys_are_taken_as_they_are_witness :
  module_init (<[lit "SIMLI_API_KEY" := lit "simli-key-123"]>
               (<[lit "TTS_API_KEY" := lit "tts-key-456"]> ∅)) = ([], sample_cfg).
Proof.
  apply set_keys_are_taken_as_they_are; done.
Defined.

(** ** The routes, further *)

Section Coverage.
Context `{Pydantic}.


(** The TTS key of the server shows on the page and nowhere else: two
    configurations with the same Simli key are served alike on every API
    route, upstream calls included. *)
Theorem tts_key_reaches_the_page_only upstream cfg1 cfg2 (r : ClientRequest) :
  SIMLI_API_KEY cfg1 = SIMLI_API_KEY cfg2 →
  r ≠ GET_root →
  serve upstream cfg1 r = serve upstream cfg2 r.
Proof.
  intros Hkey Hr. destruct r as [| agent | request |];
    [| reflexivity | reflexivity | by destruct Hr].
  unfold serve, app, get_faces. by rewrite Hkey.
Qed.

(** The face listing answers with a body exactly when the upstream answered
    200 with a JSON array all of whose elements pass [FaceOption] and, as
    the model reads them, hold no string without an encoding: one element
    that does not pass, or cannot be written, fails the whole list. *)
Theorem faces_succeed_exactly_when upstream cfg resp :
  upstream (faces_call cfg) = Some resp →
  (∃ out, (serve upstream cfg GET_api_faces).2 = Returned out)
  ↔ status_code resp = 200
    ∧ ∃ l, json_ resp = Some (JArr l)
           ∧ Forall (λ j, ∃ f, FaceOption.validate j = Some f
                               ∧ utf8_encodable (FaceOption.serialize f) = true) l.
Proof.
  intros Hup. rewrite (serve_faces _ _ resp Hup). cbn [snd]. split.
  - intros [out Hout]. case_bool_decide as Hstatus; [done |].
    split; [lia |].
    destruct (json_ resp) as [j|]; [| done].
    destruct j as [| | | | | l |]; try done.
    exists l. split; [done |]. cbn [List] in Hout.
    destruct (mapM FaceOption.validate l) as [faces|] eqn:Hfaces; [| done].
    destruct (utf8_encodable _) eqn:Henc; [| done].
    apply mapM_Some_1 in Hfaces. cbn [utf8_encodable] in Henc.
    clear Hout. induction Hfaces as [|j f l faces Hj _ IH]; [constructor |].
    rewrite fmap_cons in Henc. cbn [forallb] in Henc.
    apply andb_true_iff in Henc as [Hf Hrest]. constructor; eauto.
  - intros (Hstatus & l & -> & Hall).
    rewrite bool_decide_false by lia. cbn [List].
    assert (∃ faces, mapM FaceOption.validate l = Some faces
                     ∧ utf8_encodable (JArr (FaceOption.serialize <$> faces)) = true)
      as (faces & -> & ->); [| eauto].
    induction Hall as [|j l (f & Hf & Henc) _ (faces & Hfaces & Hall)]; [by exists [] |].
    exists (f :: faces). split.
    + apply mapM_Some_2. constructor; [done |]. by apply mapM_Some_1.
    + cbn [utf8_encodable] in *. rewrite fmap_cons. cbn [forallb].
      by rewrite Henc, Hall.
Qed.

(** What an optional field reads. *)
Lemma optional_reads {A} (validate : json → option A) (m : gmap str json)
    (k : str) (r : option A) :
  optional validate m k = Some r →
  (m !! k = None ∨ m !! k = Some JNull → r = None)
  ∧ (∀ j a, m !! k = Some j → j ≠ JNull → validate j = Some a → r = Some a).
Proof.
  unfold optional. intros Hr. split.
  - intros [Hk | Hk]; rewrite Hk in Hr; by injection Hr.
  - intros j a Hk Hj Ha. rewrite Hk in Hr.
    destruct j; try done; rewrite Ha in Hr; by injection Hr.
Qed.

(** What validation reads off an object, field by field. *)
Lemma FaceOption_validate_fields (m : gmap str json) (f : FaceOption.t) :
  FaceOption.validate (JObj m) = Some f →
  ∃ m', FaceOption.serialize f = JObj m'
    ∧ (∀ k v, m !! k = Some v → FaceOption_typed k v → m' !! k = Some v)
    ∧ (∀ k, k ∈ [lit "previewVideo"; lit "createdAt"] →
            m !! k = None → m' !! k = Some JNull).
Proof.
  unfold FaceOption.validate, required. rewrite validate_dict_JObj.
  cbn [mbind option_bind]. intros Hv.
  destruct (m !! lit "id") as [ji|] eqn:Hid; [cbn in Hv | done].
  destruct (validate_str ji) as [i|] eqn:Hi; [cbn in Hv | done].
  destruct (m !! lit "name") as [jn|] eqn:Hname; [cbn in Hv | done].
  destruct (validate_str jn) as [n|] eqn:Hn; [cbn in Hv | done].
  destruct (m !! lit "previewImage") as [jimg|] eqn:Himg; [cbn in Hv | done].
  destruct (validate_str jimg) as [img|] eqn:Hi'; [cbn in Hv | done].
  destruct (optional validate_str m "previewVideo") as [vid|] eqn:Hvid; [cbn in Hv | done].
  destruct (optional validate_int m "createdAt") as [at_|] eqn:Hat; [cbn in Hv | done].
  injection Hv as Hf. subst f.
  apply optional_reads in Hvid as [Hvn Hvs]. apply optional_reads in Hat as [Han Has].
  eexists. split; [reflexivity |]. cbn [FaceOption.id FaceOption.name
    FaceOption.previewImage FaceOption.previewVideo FaceOption.createdAt]. split.
  - intros k v Hk [[Hin [s ->]] | [[-> [z ->]] | [Hin ->]]].
    + repeat (apply elem_of_cons in Hin as [-> | Hin]);
        [| | | | by apply elem_of_nil in Hin]; simpl_map.
      * rewrite Hid in Hk. injection Hk as ->.
        rewrite validate_str_JStr in Hi. by injection Hi as ->.
      * rewrite Hname in Hk. injection Hk as ->.
        rewrite validate_str_JStr in Hn. by injection Hn as ->.
      * rewrite Himg in Hk. injection Hk as ->.
        rewrite validate_str_JStr in Hi'. by injection Hi' as ->.
      * by rewrite (Hvs _ s Hk) by (done || apply validate_str_JStr).
    + simpl_map. by rewrite (Has _ z Hk) by (done || apply validate_int_JInt).
    + repeat (apply elem_of_cons in Hin as [-> | Hin]);
        [| | by apply elem_of_nil in Hin]; simpl_map.
      * by rewrite Hvn by eauto.
      * by rewrite Han by eauto.
  - intros k Hin Hk.
    repeat (apply elem_of_cons in Hin as [-> | Hin]);
      [| | by apply elem_of_nil in Hin]; simpl_map.
    + by rewrite Hvn by eauto.
    + by rewrite Han by eauto.
Qed.

(** The face listing keeps the number and the order of the faces, and in
    each face every model field whose upstream value has the declared type;
    an optional field that the upstream left out is sent as [null]. *)
Theorem faces_keep_order_and_values upstream cfg resp l out :
  upstream (faces_call cfg) = Some resp →
  json_ resp = Some (JArr l) →
  (serve upstream cfg GET_api_faces).2 = Returned out →
  ∃ l', body out = JSONBody (JArr l')
    ∧ length l' = length l
    ∧ ∀ (i : nat) m, l !! i = Some (JObj m) →
        ∃ m', l' !! i = Some (JObj m')
          ∧ (∀ k v, m !! k = Some v → FaceOption_typed k v → m' !! k = Some v)
          ∧ (∀ k, k ∈ [lit "previewVideo"; lit "createdAt"] →
                  m !! k = None → m' !! k = Some JNull).
Proof.
  intros Hup Hjson. rewrite (serve_faces _ _ resp Hup), Hjson. cbn [snd List].
  case_bool_decide; [done |].
  destruct (mapM FaceOption.validate l) as [faces|] eqn:Hfaces; [| done].
  destruct (utf8_encodable _); [| done].
  intros [= <-]. cbn [body]. eexists. split; [reflexivity |].
  apply mapM_Some_1 in Hfaces.
  split; [rewrite length_fmap; symmetry; by eapply Forall2_length |].
  intros i m Hi.
  destruct (Forall2_lookup_l _ _ _ _ _ Hfaces Hi) as (f & Hf & Hvalid).
  destruct (FaceOption_validate_fields m f Hvalid) as (m' & Hser & Hkeep & Hnull).
  exists m'. rewrite list_lookup_fmap, Hf. cbn [fmap option_fmap option_map].
  by rewrite Hser.
Qed.

End Coverage.

Lemma tts_key_reaches_the_page_only_witness :
  serve (always faces_200_model) sample_cfg GET_api_faces =
  serve (always faces_200_model)
    {| SIMLI_API_KEY := "simli-key-123"; TTS_API_KEY := "another-tts-key" |} GET_api_faces.
Proof. apply tts_key_reaches_the_page_only; done. Defined.

Lemma faces_succeed_exactly_when_witness :
  ¬ ∃ out, (serve (always faces_200_no_image) sample_cfg GET_api_faces).2 = Returned out.
Proof.
  intros Hout.
  apply (faces_succeed_exactly_when (always faces_200_no_image) sample_cfg
           faces_200_no_image eq_refl) in Hout as (_ & l & [= <-] & Hall).
  apply Forall_cons_1 in Hall as [(f & Hf & _) _]. by vm_compute in Hf.
Defined.

Lemma faces_keep_order_and_values_witness :
  ∃ m', (serve (always faces_200_extra) sample_cfg GET_api_faces).2 =
          Returned {| status := 200; body := JSONBody (JArr [JObj m']) |}
    ∧ m' !! lit "name" = Some (JStr "Ann")
    ∧ m' !! lit "createdAt" = Some JNull.
Proof.
  edestruct (faces_keep_order_and_values (always faces_200_extra) sample_cfg
               faces_200_extra [JObj upstream_face])
    as (l' & Hbody & Hlen & Hat); [reflexivity | reflexivity | reflexivity |].
  destruct (Hat 0%nat upstream_face eq_refl) as (m' & Hm' & Hkeep & Hnull).
  injection Hbody as <-. injection Hm' as <-.
  eexists. split; [reflexivity |]. split.
  - apply Hkeep; [reflexivity |]. left. split; [set_solver | eauto].
  - apply Hnull; [set_solver | reflexivity].
Defined.

(** ** Agent creation, further *)

(** The [id] of a created agent starts with [agent-] and has between 6 and
    14 characters: six more than [face_id] has, and never more than 14. *)
Theorem agent_id_is_short (agent : AgentCreate.t) :
  ∃ r, create_agent agent = Return r
    ∧ startswith "agent-" (AgentResponse.id r) = true
    ∧ length (AgentResponse.id r) = (6 + length (AgentCreate.face_id agent) `min` 8)%nat
    ∧ (6 ≤ length (AgentResponse.id r) ≤ 14)%nat.
Proof.
  eexists. split; [reflexivity |].
  cbn [AgentResponse.id]. unfold slice_to.
  assert (Hlen : length ("agent-" ++ take 8 (AgentCreate.face_id agent)) =
                 (6 + length (AgentCreate.face_id agent) `min` 8)%nat)
    by (rewrite length_app, length_take;
        change (length (lit "agent-")) with 6%nat; lia).
  split; [apply startswith_prefix; eauto |]. split; [done | lia].
Qed.

(** Two requests get the same [id] exactly when their [face_id]s agree on
    the first eight characters: the rest of [face_id] does not tell agents
    apart. *)
Theorem agent_ids_collide_on_first_eight (agent1 agent2 : AgentCreate.t) :
  ∃ r1 r2,
    create_agent agent1 = Return r1 ∧ create_agent agent2 = Return r2
    ∧ (AgentResponse.id r1 = AgentResponse.id r2
       ↔ take 8 (AgentCreate.face_id agent1) = take 8 (AgentCreate.face_id agent2)).
Proof.
  eexists _, _. split; [reflexivity |]. split; [reflexivity |].
  cbn [AgentResponse.id]. unfold slice_to. split.
  - apply app_inv_head.
  - by intros ->.
Qed.

(** ** Request bodies *)

Section Bodies.
Context `{Pydantic}.

(** A body that passes [AgentCreate] passed field by field. *)
Lemma AgentCreate_validate_inv (m : gmap str json) (agent : AgentCreate.t) :
  AgentCreate_validate (JObj m) = Some agent →
  required validate_str m "face_id" = Some (AgentCreate.face_id agent)
  ∧ required validate_str m "name" = Some (AgentCreate.name agent)
  ∧ optional_or validate_str
      (Some (lit "The first message you want the agent to say")) m "first_message"
    = Some (AgentCreate.first_message agent)
  ∧ optional_or validate_str
      (Some (lit "The persona of the agent and the context of the conversation"))
      m "prompt"
    = Some (AgentCreate.prompt agent)
  ∧ optional_or validate_str None m "voice_provider" = Some (AgentCreate.voice_provider agent)
  ∧ optional_or validate_str None m "voice_id" = Some (AgentCreate.voice_id agent)
  ∧ optional_or validate_str None m "voice_model" = Some (AgentCreate.voice_model agent)
  ∧ optional_or validate_str None m "language" = Some (AgentCreate.language agent)
  ∧ optional_or validate_str None m "llm_endpoint" = Some (AgentCreate.llm_endpoint agent)
  ∧ optional_or validate_int (Some 300) m "max_idle_time"
    = Some (AgentCreate.max_idle_time agent)
  ∧ optional_or validate_int (Some 3600) m "max_session_length"
    = Some (AgentCreate.max_session_length agent).
Proof.
  unfold AgentCreate_validate. rewrite validate_dict_JObj.
  cbn [mbind option_bind]. intros Hv.
  repeat match type of Hv with
         | mbind _ ?o = Some _ =>
             let E := fresh "E" in
             destruct o eqn:E; [cbn [mbind option_bind] in Hv | discriminate Hv]
         end.
  injection Hv as Hagent. subst agent. by repeat split.
Qed.

Lemma optional_or_absent {A} (validate : json → option A) (default : option A)
    (m : gmap str json) (k : str) :
  m !! k = None → optional_or validate default m k = Some default.
Proof. unfold optional_or. by intros ->. Qed.

Lemma optional_or_null {A} (validate : json → option A) (default r : option A)
    (m : gmap str json) (k : str) :
  m !! k = Some JNull → optional_or validate default m k = Some r → r = None.
Proof. unfold optional_or. intros ->. by intros [= <-]. Qed.

(** A body with string [face_id] and [name] and no other field of the
    model is accepted, and the two fields are read as they stand. *)
Lemma AgentCreate_validate_accepts (m : gmap str json) (f n : str) :
  m !! lit "face_id" = Some (JStr f) →
  m !! lit "name" = Some (JStr n) →
  (∀ k, k ∈ AgentCreate_optional_fields → m !! k = None) →
  ∃ agent, AgentCreate_validate (JObj m) = Some agent
           ∧ AgentCreate.face_id agent = f
           ∧ AgentCreate.name agent = n.
Proof.
  intros Hf Hn Hopt. unfold AgentCreate_validate, required.
  rewrite validate_dict_JObj. cbn [mbind option_bind].
  rewrite Hf, Hn. cbn [mbind option_bind]. rewrite !validate_str_JStr.
  rewrite !optional_or_absent
    by (apply Hopt; unfold AgentCreate_optional_fields; set_solver).
  by eexists.
Qed.

(** A body with [face_id] and [name] and no other field of the model gives
    the handler the declared defaults: the two texts, no voice, language or
    endpoint, 300 and 3600. *)
Theorem agent_body_defaults (m : gmap str json) (f n : str) :
  m !! lit "face_id" = Some (JStr f) →
  m !! lit "name" = Some (JStr n) →
  (∀ k, k ∈ AgentCreate_optional_fields → m !! k = None) →
  AgentCreate_validate (JObj m) =
    Some {| AgentCreate.face_id := f;
            AgentCreate.name := n;
            AgentCreate.first_message :=
              Some (lit "The first message you want the agent to say");
            AgentCreate.prompt :=
              Some (lit "The persona of the agent and the context of the conversation");
            AgentCreate.voice_provider := None;
            AgentCreate.voice_id := None;
            AgentCreate.voice_model := None;
            AgentCreate.language := None;
            AgentCreate.llm_endpoint := None;
            AgentCreate.max_idle_time := Some 300;
            AgentCreate.max_session_length := Some 3600 |}.
Proof.
  intros Hf Hn Hopt. unfold AgentCreate_validate, required.
  rewrite validate_dict_JObj. cbn [mbind option_bind].
  rewrite Hf, Hn. cbn [mbind option_bind]. rewrite !validate_str_JStr.
  rewrite !optional_or_absent
    by (apply Hopt; unfold AgentCreate_optional_fields; set_solver).
  reflexivity.
Qed.

(** An explicit [null] is not the default: where a field with a default is
    sent as [null], the handler gets [None]. *)
Theorem explicit_null_is_not_the_default (m : gmap str json) (agent : AgentCreate.t) :
  AgentCreate_validate (JObj m) = Some agent →
  (m !! lit "first_message" = Some JNull → AgentCreate.first_message agent = None)
  ∧ (m !! lit "prompt" = Some JNull → AgentCreate.prompt agent = None)
  ∧ (m !! lit "max_idle_time" = Some JNull → AgentCreate.max_idle_time agent = None)
  ∧ (m !! lit "max_session_length" = Some JNull →
     AgentCreate.max_session_length agent = None).
Proof.
  intros (_ & _ & Hmsg & Hpr & _ & _ & _ & _ & _ & Hidle & Hlen)%AgentCreate_validate_inv.
  repeat split; intros Hnull; by eapply optional_or_null.
Qed.

(** A body without a required field is turned down, on both POST routes,
    and the handler does not run. *)
Theorem body_without_required_field_is_turned_down upstream cfg (m : gmap str json) :
  (m !! lit "face_id" = None ∨ m !! lit "name" = None →
   receive_agent upstream cfg (JObj m) = Unprocessable)
  ∧ (m !! lit "simliAPIKey" = None ∨ m !! lit "ttsAPIKey" = None →
     receive_token upstream cfg (JObj m) = Unprocessable).
Proof.
  split; intros Hmissing.
  - unfold receive_agent.
    destruct (AgentCreate_validate (JObj m)) as [agent|] eqn:Hv; [| done].
    apply AgentCreate_validate_inv in Hv as (Hf & Hn & _).
    unfold required in Hf, Hn. by destruct Hmissing as [Hm | Hm]; rewrite Hm in *.
  - unfold receive_token, SessionTokenRequest_validate, required.
    rewrite validate_dict_JObj. cbn [mbind option_bind].
    destruct Hmissing as [Hm | Hm]; rewrite Hm; [done |].
    by destruct (m !! lit "simliAPIKey" ≫= validate_str).
Qed.

(** Fields that the model does not have are not read: two bodies that agree
    on the fields of [AgentCreate] are answered alike. *)
Theorem agent_body_extra_fields_are_ignored upstream cfg (m1 m2 : gmap str json) :
  (∀ k, k ∈ AgentCreate_fields → m1 !! k = m2 !! k) →
  receive_agent upstream cfg (JObj m1) = receive_agent upstream cfg (JObj m2).
Proof.
  intros Hagree.
  assert (Hin : ∀ k, k ∈ AgentCreate_fields → m1 !! k = m2 !! k) by done.
  unfold receive_agent, AgentCreate_validate, required, optional_or.
  rewrite !validate_dict_JObj. cbn [mbind option_bind].
  rewrite (Hin (lit "face_id")), (Hin (lit "name")), (Hin (lit "first_message")),
    (Hin (lit "prompt")), (Hin (lit "voice_provider")), (Hin (lit "voice_id")),
    (Hin (lit "voice_model")), (Hin (lit "language")), (Hin (lit "llm_endpoint")),
    (Hin (lit "max_idle_time")), (Hin (lit "max_session_length"))
    by (unfold AgentCreate_fields, AgentCreate_optional_fields; set_solver).
  reflexivity.
Qed.

(** From the body to the answer: a body whose [face_id] and [name] are
    strings that can be encoded as UTF-8 is answered, if it is handled at
    all, with 201 and a JSON object of the three fields [id] ([agent-] and
    the first eight characters of [face_id]), [face_id] and [name]; and it
    is handled when it has no other field of the model. *)
Theorem agent_body_to_answer upstream cfg (m : gmap str json) (f n : str) :
  m !! lit "face_id" = Some (JStr f) →
  m !! lit "name" = Some (JStr n) →
  encodable_str f = true →
  encodable_str n = true →
  ∃ sent : gmap str json,
    dom sent = {[ lit "id"; lit "face_id"; lit "name" ]}
    ∧ sent !! lit "id" = Some (JStr ("agent-" ++ take 8 f))
    ∧ sent !! lit "face_id" = Some (JStr f)
    ∧ sent !! lit "name" = Some (JStr n)
    ∧ (∀ out, receive_agent upstream cfg (JObj m) = Handled out →
              out = ([], Returned {| status := 201; body := JSONBody (JObj sent) |}))
    ∧ ((∀ k, k ∈ AgentCreate_optional_fields → m !! k = None) →
       receive_agent upstream cfg (JObj m) =
         Handled ([], Returned {| status := 201; body := JSONBody (JObj sent) |})).
Proof.
  intros Hf Hn Hfenc Hnenc.
  assert (Hserve : ∀ agent,
    AgentCreate.face_id agent = f → AgentCreate.name agent = n →
    serve upstream cfg (POST_api_agent agent) =
      ([], Returned
             {| status := 201;
                body := JSONBody (AgentResponse.serialize
                  {| AgentResponse.id := "agent-" ++ take 8 f;
                     AgentResponse.face_id := f;
                     AgentResponse.name := n |}) |})).
  { intros agent Hface Hname. rewrite serve_agent, Hface, Hname. cbv zeta.
    rewrite AgentResponse_serialize_encodable.
    cbn [AgentResponse.id AgentResponse.face_id AgentResponse.name].
    by rewrite encodable_str_app, (encodable_str_take 8 _ Hfenc), Hfenc, Hnenc. }
  exists (<[lit "id" := JStr ("agent-" ++ take 8 f)]>
          (<[lit "face_id" := JStr f]> (<[lit "name" := JStr n]> ∅))).
  split; [| split; [| split; [| split; [| split]]]];
    [| | | | intros out | intros Hopt].
  - rewrite !dom_insert_L, dom_empty_L. set_solver.
  - by simpl_map.
  - by simpl_map.
  - by simpl_map.
  - unfold receive_agent.
    destruct (AgentCreate_validate (JObj m)) as [agent|] eqn:Hv; [| done].
    apply AgentCreate_validate_inv in Hv as (Hface & Hname & _).
    unfold required in Hface, Hname. rewrite Hf in Hface. rewrite Hn in Hname.
    cbn [mbind option_bind] in Hface, Hname.
    rewrite validate_str_JStr in Hface, Hname.
    injection Hface as Hface. injection Hname as Hname.
    rewrite (Hserve agent (eq_sym Hface) (eq_sym Hname)). intros Hout.
    injection Hout as <-. reflexivity.
  - unfold receive_agent.
    destruct (AgentCreate_validate_accepts m f n Hf Hn Hopt)
      as (agent & -> & Hface & Hname).
    f_equal. by apply Hserve.
Qed.

(** From the body to the upstream: of a token body whose two keys are
    strings that can be encoded as UTF-8, these two and nothing else the
    caller sent go upstream. *)
Theorem token_body_to_upstream upstream cfg (m : gmap str json) (simli tts : str) :
  m !! lit "simliAPIKey" = Some (JStr simli) →
  m !! lit "ttsAPIKey" = Some (JStr tts) →
  encodable_str simli = true →
  encodable_str tts = true →
  ∃ out (payload : gmap str json),
    receive_token upstream cfg (JObj m) = Handled out
    ∧ out.1 = [ {| method := POST;
                   url := "https://api.simli.ai/createE2ESessionToken";
                   headers := [];
                   json_payload := Some (JObj payload) |} ]
    ∧ dom payload = {[ lit "simliAPIKey"; lit "ttsAPIKey" ]}
    ∧ payload !! lit "simliAPIKey" = Some (JStr simli)
    ∧ payload !! lit "ttsAPIKey" = Some (JStr tts).
Proof.
  intros Hs Ht Hsenc Htenc.
  unfold receive_token, SessionTokenRequest_validate, required.
  rewrite validate_dict_JObj. cbn [mbind option_bind].
  rewrite Hs, Ht. cbn [mbind option_bind]. rewrite !validate_str_JStr.
  eexists _, _. split; [reflexivity |]. split.
  { rewrite serve_token_calls, sendable_token_call.
    cbn [SessionTokenRequest.simliAPIKey SessionTokenRequest.ttsAPIKey].
    by rewrite Hsenc, Htenc. }
  split; [| by simpl_map].
  rewrite !dom_insert_L, dom_empty_L. set_solver.
Qed.

End Bodies.

(** A body as the page's form sends it, with a field of its own. *)
Lemma agent_body_defaults_witness :
  AgentCreate.max_idle_time <$>
    AgentCreate_validate
      (JObj sample_agent_body)
  = Some (Some 300).
Proof.
  by rewrite (agent_body_defaults sample_agent_body (lit "tmp9i8bbq7c") (lit "Ann"))
    by (try done; intros k Hk; unfold AgentCreate_optional_fields in Hk;
        repeat (apply elem_of_cons in Hk as [-> | Hk]); try done;
        by apply elem_of_nil in Hk).
Defined.

Lemma explicit_null_is_not_the_default_witness :
  AgentCreate.max_idle_time <$>
    AgentCreate_validate
      (JObj (<[lit "face_id" := JStr "tmp9i8bbq7c"]>
            (<[lit "name" := JStr "Ann"]>
            (<[lit "max_idle_time" := JNull]> ∅))))
  = Some None.
Proof.
  destruct (AgentCreate_validate _) as [agent|] eqn:Hv; [| by vm_compute in Hv].
  simpl. f_equal.
  by apply (proj1 (proj2 (proj2 (explicit_null_is_not_the_default _ _ Hv)))).
Defined.

Lemma body_without_required_field_is_turned_down_witness :
  receive_agent offline sample_cfg (JObj (<[lit "name" := JStr "Ann"]> ∅)) = Unprocessable.
Proof.
  apply (proj1 (body_without_required_field_is_turned_down _ _ _)). by left.
Defined.

Lemma agent_body_extra_fields_are_ignored_witness :
  receive_agent offline sample_cfg
    (JObj sample_agent_body)
  = receive_agent offline sample_cfg
      (JObj (<[lit "face_id" := JStr "tmp9i8bbq7c"]>
            (<[lit "name" := JStr "Ann"]> (<[lit "csrf" := JStr "x"]> ∅)))).
Proof.
  apply agent_body_extra_fields_are_ignored.
  intros k Hk. unfold AgentCreate_fields, AgentCreate_optional_fields in Hk.
  repeat (apply elem_of_cons in Hk as [-> | Hk]); try done.
  by apply elem_of_nil in Hk.
Defined.

Lemma agent_body_to_answer_witness :
  ∃ sent : gmap str json,
    receive_agent offline sample_cfg (JObj sample_agent_body)
    = Handled ([], Returned {| status := 201; body := JSONBody (JObj sent) |})
    ∧ sent !! lit "id" = Some (JStr ("agent-" ++ take 8 (lit "tmp9i8bbq7c"))).
Proof.
  assert (Hopt : ∀ k, k ∈ AgentCreate_optional_fields →
                      sample_agent_body !! k = None).
  { intros k Hk. unfold AgentCreate_optional_fields in Hk.
    repeat (apply elem_of_cons in Hk as [-> | Hk]); try done.
    by apply elem_of_nil in Hk. }
  destruct (agent_body_to_answer offline sample_cfg sample_agent_body
              (lit "tmp9i8bbq7c") (lit "Ann") eq_refl eq_refl eq_refl eq_refl)
    as (sent & _ & Hid & _ & _ & _ & Hhandled).
  exists sent. split; [exact (Hhandled Hopt) | exact Hid].
Defined.

Lemma token_body_to_upstream_witness :
  ∃ out (payload : gmap str json),
    receive_token (always token_200_model) sample_cfg
      (JObj (<[lit "simliAPIKey" := JStr "caller-simli"]>
            (<[lit "ttsAPIKey" := JStr "caller-tts"]>
            (<[lit "debug" := JBool true]> ∅)))) = Handled out
    ∧ out.1 = [ {| method := POST;
                   url := "https://api.simli.ai/createE2ESessionToken";
                   headers := [];
                   json_payload := Some (JObj payload) |} ]
    ∧ dom payload = {[ lit "simliAPIKey"; lit "ttsAPIKey" ]}
    ∧ payload !! lit "simliAPIKey" = Some (JStr "caller-simli")
    ∧ payload !! lit "ttsAPIKey" = Some (JStr "caller-tts").
Proof. apply token_body_to_upstream; reflexivity. Defined.

